(** * plugin-elfa-ai: the seven Elfa AI actions of [dist/index.js]

    A shallow embedding of the plugin: the configuration resolver
    [validateElfaAiConfig] of [src/environment.ts], the five content guards
    and the seven action descriptors with their [validate] and [handler]
    functions, together with the pieces of JavaScript they rely on
    ([typeof], [===], truthiness, template literals, destructuring defaults,
    [JSON.stringify]) and the part of zod the resolver uses.

    Asynchronous functions are modelled by what their promise settles to:
    a value ([Return]) or a thrown one ([Throw]).  The calls a handler makes
    to its collaborators (settings lookup, state composition, object and text
    generation, axios, the callback, the logger) are recorded, in order, in
    an event log. *)

From Stdlib Require Import String Ascii List ZArith Bool Lia.
From Stdlib Require Import DecimalString.
Import ListNotations.
Local Open Scope list_scope.
Local Open Scope string_scope.

(** ** JavaScript values *)

Module JS.

(** The values that flow through the plugin.  Numbers are IEEE doubles in
    JavaScript; the code only tests them with [typeof] and passes them on, so
    the embedding keeps the integer-valued ones.  An object is its list of
    own properties in insertion order. *)
#[warnings="-register-all"]
Inductive JSValue : Type :=
| JUndefined
| JNull
| JBool (b : bool)
| JNum (n : Z)
| JStr (s : string)
| JArr (elems : list JSValue)
| JObj (props : list (string * JSValue)).

(** [typeof v] *)
Definition typeof (v : JSValue) : string :=
  match v with
  | JUndefined => "undefined"
  | JNull => "object"
  | JBool _ => "boolean"
  | JNum _ => "number"
  | JStr _ => "string"
  | JArr _ => "object"
  | JObj _ => "object"
  end.

(** [a === b].  Arrays and objects compare by reference; the plugin only
    ever compares against a primitive, and a reference never equals one. *)
Definition strict_eq (a b : JSValue) : bool :=
  match a, b with
  | JUndefined, JUndefined => true
  | JNull, JNull => true
  | JBool x, JBool y => Bool.eqb x y
  | JNum x, JNum y => Z.eqb x y
  | JStr x, JStr y => String.eqb x y
  | _, _ => false
  end.

(** Truthiness, as used by [||] and [!]. *)
Definition truthy (v : JSValue) : bool :=
  match v with
  | JUndefined | JNull => false
  | JBool b => b
  | JNum n => negb (Z.eqb n 0)
  | JStr s => negb (String.eqb s EmptyString)
  | JArr _ | JObj _ => true
  end.

(** Own-property lookup in a property list. *)
Fixpoint lookup (k : string) (props : list (string * JSValue)) : option JSValue :=
  match props with
  | [] => None
  | (k', v) :: rest => if String.eqb k k' then Some v else lookup k rest
  end.

(** Decimal rendering of an integer-valued number. *)
Definition number_to_string (n : Z) : string :=
  NilZero.string_of_int (Z.to_int n).

(** [String(v)], the conversion a template literal [`${v}`] applies. *)
Fixpoint to_string (v : JSValue) : string :=
  match v with
  | JUndefined => "undefined"
  | JNull => "null"
  | JBool true => "true"
  | JBool false => "false"
  | JNum n => number_to_string n
  | JStr s => s
  | JArr elems =>
      String.concat ","
        (map (fun e => match e with
                       | JUndefined | JNull => EmptyString
                       | _ => to_string e
                       end) elems)
  | JObj _ => "[object Object]"
  end.

(** The double-quote and line-feed characters, as one-character strings. *)
Definition dq : string := String "034"%char EmptyString.
Definition nl : string := String "010"%char EmptyString.

(** A text given line by line. *)
Definition lines (ls : list string) : string := String.concat nl ls.

(** *** JSON.stringify *)

Definition hex_digit (n : nat) : ascii :=
  match n with
  | 0 => "0" | 1 => "1" | 2 => "2" | 3 => "3" | 4 => "4" | 5 => "5"
  | 6 => "6" | 7 => "7" | 8 => "8" | 9 => "9" | 10 => "a" | 11 => "b"
  | 12 => "c" | 13 => "d" | 14 => "e" | _ => "f"
  end%char.

(** One code unit of QuoteJSONString. *)
Definition quote_char (c : ascii) : string :=
  let n := nat_of_ascii c in
  if Nat.eqb n 34 then "\" ++ dq
  else if Nat.eqb n 92 then "\\"
  else if Nat.eqb n 8 then "\b"
  else if Nat.eqb n 9 then "\t"
  else if Nat.eqb n 10 then "\n"
  else if Nat.eqb n 12 then "\f"
  else if Nat.eqb n 13 then "\r"
  else if Nat.ltb n 32 then
    "\u00" ++ String (hex_digit (n / 16)) (String (hex_digit (n mod 16)) EmptyString)
  else String c EmptyString.

Fixpoint QuoteJSONString_body (s : string) : string :=
  match s with
  | EmptyString => EmptyString
  | String c rest => quote_char c ++ QuoteJSONString_body rest
  end.

Definition QuoteJSONString (s : string) : string :=
  dq ++ QuoteJSONString_body s ++ dq.

(** The closing step of SerializeJSONObject and SerializeJSONArray: the
    serialized members between the brackets, on one line when [gap] is empty
    and one per line, indented, otherwise. *)
Definition wrap_members (open close gap stepback indent : string)
    (partial : list string) : string :=
  match partial with
  | [] => open ++ close
  | _ =>
      if String.eqb gap EmptyString
      then open ++ String.concat "," partial ++ close
      else open ++ nl ++ indent
           ++ String.concat ("," ++ nl ++ indent) partial
           ++ nl ++ stepback ++ close
  end.

(** SerializeJSONProperty: [None] is JavaScript's [undefined] (the value is
    left out of an object and becomes [null] in an array). *)
Fixpoint SerializeJSONProperty (gap indent : string) (v : JSValue)
    : option string :=
  match v with
  | JUndefined => None
  | JNull => Some "null"
  | JBool true => Some "true"
  | JBool false => Some "false"
  | JNum n => Some (number_to_string n)
  | JStr s => Some (QuoteJSONString s)
  | JArr elems =>
      let stepback := indent in
      let indent := indent ++ gap in
      let partial :=
        map (fun e => match SerializeJSONProperty gap indent e with
                      | Some str => str
                      | None => "null"
                      end) elems in
      Some (wrap_members "[" "]" gap stepback indent partial)
  | JObj props =>
      let stepback := indent in
      let indent := indent ++ gap in
      let partial :=
        (fix members (ps : list (string * JSValue)) : list string :=
           match ps with
           | [] => []
           | (k, e) :: rest =>
               match SerializeJSONProperty gap indent e with
               | Some str =>
                   (QuoteJSONString k
                    ++ (if String.eqb gap EmptyString then ":" else ": ")
                    ++ str) :: members rest
               | None => members rest
               end
           end) props in
      Some (wrap_members "{" "}" gap stepback indent partial)
  end.

(** [`${JSON.stringify(v)}`]: the compact form, [undefined] printing as the
    word. *)
Definition JSON_stringify (v : JSValue) : string :=
  match SerializeJSONProperty EmptyString EmptyString v with
  | Some s => s
  | None => "undefined"
  end.

(** [`${JSON.stringify(v, null, 2)}`]: two spaces of indentation. *)
Definition JSON_stringify_2 (v : JSValue) : string :=
  match SerializeJSONProperty "  " EmptyString v with
  | Some s => s
  | None => "undefined"
  end.

End JS.

Import JS.


(** ** Settled promises, thrown values and the event log *)

(** What a call settles to: a value or a thrown one. *)
Inductive Result (E A : Type) : Type :=
| Return (a : A)
| Throw (e : E).
Arguments Return {E A} a.
Arguments Throw {E A} e.

(** [new Error(message)], and every other thrown object with a [message]
    (axios errors, the TypeError of a property read on [undefined]). *)
Record Error : Type := new_Error { message : string }.

(** The object handed to the callback: [{ text, action?, content? }]. *)
Record Content : Type := mkContent {
  text : string;
  action : option string;
  content : option JSValue
}.

Definition Headers : Type := list (string * JSValue).
Definition Params : Type := list (string * JSValue).

(** The zod schema language, as far as the plugin writes it. *)
Module Zod.

Inductive ZodType : Type :=
| z_string (min : option (nat * option string))
| z_number
| z_boolean
| z_optional (t : ZodType).

(** [z.object({ ... })]: the shape, keys in declaration order. *)
Definition ZodObject : Type := list (string * ZodType).

(** One entry of [ZodError.errors]. *)
Record ZodIssue : Type := mkIssue {
  issue_code : string;
  issue_path : list string;
  issue_message : string
}.

(** zod's [getParsedType]. *)
Definition parsed_type (v : JSValue) : string :=
  match v with
  | JUndefined => "undefined"
  | JNull => "null"
  | JBool _ => "boolean"
  | JNum _ => "number"
  | JStr _ => "string"
  | JArr _ => "array"
  | JObj _ => "object"
  end.

(** The [invalid_type] issue with zod's default message. *)
Definition invalid_type (expected : string) (path : list string) (v : JSValue)
    : ZodIssue :=
  mkIssue "invalid_type" path
    (match v with
     | JUndefined => "Required"
     | _ => "Expected " ++ expected ++ ", received " ++ parsed_type v
     end).

(** The issues one schema raises on one value. *)
Fixpoint issues_of (t : ZodType) (path : list string) (v : JSValue)
    : list ZodIssue :=
  match t with
  | z_string min =>
      match v with
      | JStr s =>
          match min with
          | Some (n, msg) =>
              if Nat.ltb (String.length s) n
              then [mkIssue "too_small" path
                      (match msg with
                       | Some m => m
                       | None => "String must contain at least "
                                 ++ number_to_string (Z.of_nat n)
                                 ++ " character(s)"
                       end)]
              else []
          | None => []
          end
      | _ => [invalid_type "string" path v]
      end
  | z_number =>
      match v with
      | JNum _ => []
      | _ => [invalid_type "number" path v]
      end
  | z_boolean =>
      match v with
      | JBool _ => []
      | _ => [invalid_type "boolean" path v]
      end
  | z_optional t' =>
      match v with
      | JUndefined => []
      | _ => issues_of t' path v
      end
  end.

(** [obj[k]]: an absent key reads as [undefined]. *)
Definition field (props : list (string * JSValue)) (k : string) : JSValue :=
  match lookup k props with
  | Some v => v
  | None => JUndefined
  end.

(** Every key of the shape is checked: the issues of all of them are
    collected, in shape order. *)
Definition object_issues (shape : ZodObject) (props : list (string * JSValue))
    : list ZodIssue :=
  flat_map (fun kt => issues_of (snd kt) [fst kt] (field props (fst kt))) shape.

(** The parsed object keeps the shape's keys that the input has. *)
Definition object_output (shape : ZodObject) (props : list (string * JSValue))
    : list (string * JSValue) :=
  flat_map (fun kt => match lookup (fst kt) props with
                      | Some v => [(fst kt, v)]
                      | None => []
                      end) shape.

(** [schema.parse(data)]: the parsed object, or a ZodError carrying the
    issues. *)
Definition parse (shape : ZodObject) (data : JSValue)
    : Result (list ZodIssue) JSValue :=
  match data with
  | JObj props =>
      match object_issues shape props with
      | [] => Return (JObj (object_output shape props))
      | errors => Throw errors
      end
  | _ => Throw [invalid_type "object" [] data]
  end.

End Zod.

Import Zod.

(** The calls a function makes to the outside, in the order it makes them,
    each with what it was given and, where it returns something the code
    uses, what it settled to. *)
Inductive Event : Type :=
| EvGetSetting (key : string)
| EvEnv (name : string)
| EvComposeState (message : JSValue) (outcome : Result Error JSValue)
| EvUpdateRecentMessageState (state : JSValue) (outcome : Result Error JSValue)
| EvGenerateObject (context : string) (schema : ZodObject)
    (schemaName schemaDescription : string) (outcome : Result Error JSValue)
| EvAxiosGet (url : string) (headers : Headers) (params : option Params)
    (outcome : Result Error JSValue)
| EvGenerateText (context : string) (outcome : Result Error string)
| EvCallback (response : Content)
| EvLogInfo (msg : string) (data : JSValue)
| EvLogError (msg : string) (error : Error).

Definition Trace : Type := list Event.

(** A computation with exceptions of type [E]: the calls it made and what it
    settled to. *)
Definition M (E A : Type) : Type := Trace * Result E A.

Definition ret {E A} (a : A) : M E A := ([], Return a).

Definition throw {E A} (e : E) : M E A := ([], Throw e).

Definition bind {E A B} (m : M E A) (f : A -> M E B) : M E B :=
  match m with
  | (t, Return a) => let (t', r) := f a in ((t ++ t')%list, r)
  | (t, Throw e) => (t, Throw e)
  end.

(** [try { m } catch (e) { h e }] *)
Definition try_catch {E E' A} (m : M E A) (h : E -> M E' A) : M E' A :=
  match m with
  | (t, Return a) => (t, Return a)
  | (t, Throw e) => let (t', r) := h e in ((t ++ t')%list, r)
  end.

(** A call that is logged and cannot fail. *)
Definition emit {E} (ev : Event) : M E unit := ([ev], Return tt).

(** A pure step that may throw. *)
Definition lift {E A} (r : Result E A) : M E A := ([], r).

Declare Scope js_scope.
Delimit Scope js_scope with js.
Notation "x <- m ;; k" := (bind m (fun x => k))
  (at level 61, m at next level, right associativity) : js_scope.
Notation "m ;; k" := (bind m (fun _ => k))
  (at level 61, right associativity) : js_scope.
Local Open Scope js_scope.

(** ** The collaborators *)

(** Everything outside the plugin that its functions consult: the runtime
    ([getSetting], [composeState], [updateRecentMessageState]), the process
    environment, [composeContext], [generateObject] (its [.object]),
    [generateText] from the core package, and [axios.get] (its [.data]). *)
Record World : Type := mkWorld {
  getSetting : string -> JSValue;
  process_env : string -> option string;
  composeState : JSValue -> Result Error JSValue;
  updateRecentMessageState : JSValue -> Result Error JSValue;
  composeContext : JSValue -> string -> string;
  generateObject : string -> ZodObject -> string -> string -> Result Error JSValue;
  generateText : string -> Result Error string;
  axios_get : string -> Headers -> option Params -> Result Error JSValue
}.

Section Calls.
Context {E : Type} (w : World).

(** [runtime.getSetting(key)] *)
Definition runtime_getSetting (key : string) : M E JSValue :=
  emit (EvGetSetting key) ;; ret (getSetting w key).

(** [process.env.NAME] *)
Definition process_env_read (name : string) : M E JSValue :=
  emit (EvEnv name) ;;
  ret (match process_env w name with
       | Some s => JStr s
       | None => JUndefined
       end).

End Calls.

Section AwaitedCalls.
Variable w : World.

(** [await runtime.composeState(message)] *)
Definition runtime_composeState (message : JSValue) : M Error JSValue :=
  let r := composeState w message in ([EvComposeState message r], r).

(** [await runtime.updateRecentMessageState(state)] *)
Definition runtime_updateRecentMessageState (state : JSValue)
    : M Error JSValue :=
  let r := updateRecentMessageState w state in
  ([EvUpdateRecentMessageState state r], r).

(** [(await generateObject({ runtime, context, modelClass: LARGE, schema,
    schemaName, schemaDescription })).object] *)
Definition core_generateObject (context : string) (schema : ZodObject)
    (schemaName schemaDescription : string) : M Error JSValue :=
  let r := generateObject w context schema schemaName schemaDescription in
  ([EvGenerateObject context schema schemaName schemaDescription r], r).

(** [await generateText({ runtime, context, modelClass: LARGE })] *)
Definition core_generateText (context : string) : M Error string :=
  let r := generateText w context in ([EvGenerateText context r], r).

(** [(await axios.get(url, { headers, params })).data] *)
Definition axios_get_data (url : string) (headers : Headers)
    (params : option Params) : M Error JSValue :=
  let r := axios_get w url headers params in
  ([EvAxiosGet url headers params r], r).

End AwaitedCalls.

(** [callback?.(response)]: the callback is optional. *)
Definition callback_opt {E} (callback : bool) (response : Content) : M E unit :=
  if callback then emit (EvCallback response) else ret tt.

(** ** src/environment.ts *)

Definition elfaAiEnvSchema : ZodObject :=
  [ ("ELFA_AI_BASE_URL",
     z_string (Some (1, Some "Base URL is required for interacting with Elfa AI")));
    ("ELFA_AI_API_KEY",
     z_string (Some (1, Some "API key is required for interacting with Elfa AI"))) ].

(** What the [try] block of [validateElfaAiConfig] can throw: a ZodError
    from [parse], or anything else. *)
Inductive Thrown : Type :=
| ZodError (errors : list ZodIssue)
| OtherError (e : Error).

(** [schema.parse(data)] inside a [try]. *)
Definition parse_or_throw (shape : ZodObject) (data : JSValue)
    : M Thrown JSValue :=
  match parse shape data with
  | Return v => ret v
  | Throw errors => throw (ZodError errors)
  end.

(** [error.errors.map((err) => `${err.path.join(".")}: ${err.message}`).join("\n")] *)
Definition errorMessages (errors : list ZodIssue) : string :=
  String.concat nl
    (map (fun err => String.concat "." (issue_path err) ++ ": " ++ issue_message err)
         errors).

Definition validateElfaAiConfig (runtime : World) : M Error JSValue :=
  try_catch
    (base <- runtime_getSetting runtime "ELFA_AI_BASE_URL" ;;
     base <- (if truthy base then ret base
              else process_env_read runtime "ELFA_AI_BASE_URL") ;;
     key <- runtime_getSetting runtime "ELFA_AI_API_KEY" ;;
     key <- (if truthy key then ret key
             else process_env_read runtime "ELFA_AI_API_KEY") ;;
     let config := JObj [("ELFA_AI_BASE_URL", base); ("ELFA_AI_API_KEY", key)] in
     parse_or_throw elfaAiEnvSchema config)
    (fun error =>
       match error with
       | ZodError errors =>
           throw (new_Error ("Elfa AI configuration validation failed:" ++ nl
                             ++ errorMessages errors))
       | OtherError e => throw e
       end).


(** ** Property reads, guards and destructuring *)

Definition rbind {E A B} (r : Result E A) (f : A -> Result E B) : Result E B :=
  match r with
  | Return a => f a
  | Throw e => Throw e
  end.

(** [content.k]: reading a property of [undefined] or [null] throws; a key
    the value does not have reads as [undefined] (none of the keys the plugin
    reads is a property of a string, a number, a boolean or an array). *)
Definition prop (content : JSValue) (k : string) : Result Error JSValue :=
  match content with
  | JUndefined | JNull =>
      Throw (new_Error ("Cannot read properties of " ++ to_string content
                        ++ " (reading '" ++ k ++ "')"))
  | JObj props => Return (field props k)
  | _ => Return JUndefined
  end.

(** [typeof e] *)
Definition typeof_ (e : Result Error JSValue) : Result Error JSValue :=
  rbind e (fun v => Return (JStr (typeof v))).

(** [e === v], [a && b] and [a || b] on booleans, the right operand of the
    last two evaluated only when the left one does not decide. *)
Definition strict_equals (e : Result Error JSValue) (v : JSValue)
    : Result Error bool :=
  rbind e (fun x => Return (strict_eq x v)).

Definition and_then (a b : Result Error bool) : Result Error bool :=
  rbind a (fun x => if x then b else Return false).

Definition or_otherwise (a b : Result Error bool) : Result Error bool :=
  rbind a (fun x => if x then Return true else b).

Notation "a === b" := (strict_equals a b) (at level 35, no associativity) : js_scope.
Notation "a &&& b" := (and_then a b) (at level 40, left associativity) : js_scope.
Notation "a ||| b" := (or_otherwise a b) (at level 50, left associativity) : js_scope.

(** [void 0] *)
Definition void_0 : JSValue := JUndefined.

(** A destructuring default replaces [undefined] only. *)
Definition with_default (v : JSValue) (default : option JSValue) : JSValue :=
  match default, v with
  | Some d, JUndefined => d
  | _, _ => v
  end.

(** One binding of [const { k = d, ... } = content]. *)
Definition destructure (content : JSValue) (k : string) (default : option JSValue)
    : M Error JSValue :=
  match content with
  | JUndefined | JNull =>
      throw (new_Error ("Cannot destructure property '" ++ k ++ "' of 'content' as it is "
                        ++ to_string content ++ "."))
  | JObj props => ret (with_default (field props k) default)
  | _ => ret (with_default JUndefined default)
  end.

(** ** The action descriptors *)

(** An action of the plugin.  The [examples] of the source are sample
    dialogues and are left out. *)
Record Action : Type := mkAction {
  name : string;
  similes : list string;
  description : string;
  validate : World -> M Error bool;
  handler : World -> JSValue -> JSValue -> bool -> M Error bool
}.

(** Every handler builds the same two headers. *)
Definition request_headers (key : JSValue) : Headers :=
  [("Content-Type", JStr "application/json"); ("x-elfa-api-key", key)].

(** *** src/actions/ping.ts *)

Definition elfaPingAction_validate (runtime : World) : M Error bool :=
  validateElfaAiConfig runtime ;; ret true.

Definition elfaPingAction_handler (runtime : World) (memory state : JSValue)
    (callback : bool) : M Error bool :=
  try_catch
    (baseUrl <- runtime_getSetting runtime "ELFA_AI_BASE_URL" ;;
     key <- runtime_getSetting runtime "ELFA_AI_API_KEY" ;;
     let headers := request_headers key in
     responseData <- axios_get_data runtime (to_string baseUrl ++ "/v1/ping")
                       headers None ;;
     callback_opt callback
       (mkContent ("Elfa AI API is up and running. Response: "
                   ++ JSON_stringify responseData)
                  (Some "ELFA_PING") None) ;;
     emit (EvLogInfo "Elfa AI API is up and running" responseData) ;;
     ret true)
    (fun error =>
       emit (EvLogError "Failed to ping Elfa AI API" error) ;;
       callback_opt callback
         (mkContent ("Elfa AI API is down. Please check the API status." ++ nl
                     ++ "Error:" ++ nl ++ message error)
                    (Some "ELFA_PING") None) ;;
       ret false).

Definition elfaPingAction : Action :=
  mkAction "ELFA_PING"
    ["ping elfa"; "elfa health check"; "check elfa api"]
    "Checks the health of the Elfa AI API by pinging it."
    elfaPingAction_validate elfaPingAction_handler.

(** *** src/actions/apiKeyStatus.ts *)

Definition elfaApiKeyStatusAction_validate (runtime : World) : M Error bool :=
  validateElfaAiConfig runtime ;; ret true.

Definition elfaApiKeyStatusAction_handler (runtime : World)
    (memory state : JSValue) (callback : bool) : M Error bool :=
  try_catch
    (baseUrl <- runtime_getSetting runtime "ELFA_AI_BASE_URL" ;;
     key <- runtime_getSetting runtime "ELFA_AI_API_KEY" ;;
     let headers := request_headers key in
     responseData <- axios_get_data runtime (to_string baseUrl ++ "/v1/key-status")
                       headers None ;;
     callback_opt callback
       (mkContent ("Elfa AI API key status. Response: "
                   ++ JSON_stringify responseData)
                  (Some "ELFA_API_KEY_STATUS") None) ;;
     emit (EvLogInfo "Elfa AI API key status" responseData) ;;
     ret true)
    (fun error =>
       emit (EvLogError "Failed to get api key status from Elfa AI API" error) ;;
       callback_opt callback
         (mkContent ("Failed to get api key status from Elfa AI. Please check the your API key."
                     ++ nl ++ "Error:" ++ nl ++ message error)
                    (Some "ELFA_API_KEY_STATUS") None) ;;
       ret false).

Definition elfaApiKeyStatusAction : Action :=
  mkAction "ELFA_API_KEY_STATUS"
    ["elfa api key status"; "check api key"; "api key info"]
    "Retrieves the status and usage details of the Elfa AI API key."
    elfaApiKeyStatusAction_validate elfaApiKeyStatusAction_handler.

(** The rule between the summary and the raw response in the five
    summarising handlers. *)
Definition rule : string := "------------------------------------------------".

(** [if (!state) composeState(message) else updateRecentMessageState(state)] *)
Definition refresh_state (runtime : World) (memory state : JSValue)
    : M Error JSValue :=
  if negb (truthy state)
  then runtime_composeState runtime memory
  else runtime_updateRecentMessageState runtime state.

(** *** src/actions/getSmartMentions.ts *)

Definition getSmartMentionsSchema : ZodObject :=
  [ ("limit", z_optional z_number); ("offset", z_optional z_number) ].

Definition getSmartMentionsTemplate : string :=
  lines
    [ "Respond with a JSON object containing only the extracted information:";
      EmptyString;
      "Example response:";
      "```json";
      "{";
      "    " ++ dq ++ "limit" ++ dq ++ ": 100,";
      "    " ++ dq ++ "offset" ++ dq ++ ": 0";
      "}";
      "```";
      EmptyString;
      "{{recentMessages}}";
      EmptyString;
      "Given the recent messages, extract the following information about the requested smart mentions:";
      "- Limit: The number of smart mentions to retrieve.";
      "- Offset: The offset to start retrieving smart mentions from.";
      EmptyString;
      "Respond with a JSON object containing only the extracted information";
      EmptyString ].

Definition isGetSmartMentionsContent (content : JSValue) : Result Error bool :=
  typeof_ (prop content "limit") === JStr "number"
  &&& typeof_ (prop content "offset") === JStr "number".

Definition elfaGetSmartMentions_validate (runtime : World) : M Error bool :=
  validateElfaAiConfig runtime ;; ret true.

Definition elfaGetSmartMentions_handler (runtime : World)
    (memory state : JSValue) (callback : bool) : M Error bool :=
  try_catch
    (baseUrl <- runtime_getSetting runtime "ELFA_AI_BASE_URL" ;;
     key <- runtime_getSetting runtime "ELFA_AI_API_KEY" ;;
     let headers := request_headers key in
     updatedState <- refresh_state runtime memory state ;;
     let context := composeContext runtime updatedState getSmartMentionsTemplate in
     content <- core_generateObject runtime context getSmartMentionsSchema
                  "GetSmartMentionsSchema"
                  "Schema for getting smart mentions from Elfa AI API" ;;
     valid <- lift (isGetSmartMentionsContent content) ;;
     if negb valid then
       callback_opt callback
         (mkContent "Unable to process get smart mentions request. Invalid content provided."
                    None
                    (Some (JObj [("error", JStr "Invalid get smart mentions content")]))) ;;
       ret false
     else
       limit <- destructure content "limit" (Some (JNum 100)) ;;
       offset <- destructure content "offset" (Some (JNum 0)) ;;
       responseData <- axios_get_data runtime (to_string baseUrl ++ "/v1/mentions")
                         headers (Some [("limit", limit); ("offset", offset)]) ;;
       let prompt :=
         "Extracted information and summarize the smart mentions from the Elfa AI API.:"
         ++ nl ++ "            " ++ JSON_stringify_2 responseData in
       callbackMessage <- core_generateText runtime prompt ;;
       callback_opt callback
         (mkContent ("Retrieves tweets by smart accounts with smart engagement from the Elfa AI API:"
                     ++ nl ++ callbackMessage ++ nl ++ rule ++ nl
                     ++ "Raw Response: " ++ nl ++ JSON_stringify_2 responseData)
                    (Some "ELFA_GET_SMART_MENTIONS") None) ;;
       ret true)
    (fun error =>
       callback_opt callback
         (mkContent ("Failed to get smart mentions from Elfa AI API." ++ nl
                     ++ "Error:" ++ nl ++ message error)
                    (Some "ELFA_GET_SMART_MENTIONS") None) ;;
       ret false).

Definition elfaGetSmartMentions : Action :=
  mkAction "ELFA_GET_SMART_MENTIONS"
    ["get mentions"; "smart mentions"; "fetch mentions"]
    "Retrieves tweets by smart accounts with smart engagement from the Elfa AI API."
    elfaGetSmartMentions_validate elfaGetSmartMentions_handler.

(** *** src/actions/getTopMentions.ts *)

Definition getTopMentionsSchema : ZodObject :=
  [ ("ticker", z_string (Some (1, None)));
    ("timeWindow", z_optional (z_string (Some (2, None))));
    ("page", z_optional z_number);
    ("pageSize", z_optional z_number);
    ("includeAccountDetails", z_optional z_boolean) ].

Definition getTopMentionsTemplate : string :=
  lines
    [ "Respond with a JSON object containing only the extracted information:";
      EmptyString;
      "Example response:";
      "```json";
      "{";
      "    " ++ dq ++ "ticker" ++ dq ++ ": " ++ dq ++ "SOL" ++ dq ++ ",";
      "    " ++ dq ++ "timeWindow" ++ dq ++ ": " ++ dq ++ "1h" ++ dq ++ ",";
      "    " ++ dq ++ "page" ++ dq ++ ": 1,";
      "    " ++ dq ++ "pageSize" ++ dq ++ ": 10,";
      "    " ++ dq ++ "includeAccountDetails" ++ dq ++ ": false";
      "}";
      "```";
      EmptyString;
      "{{recentMessages}}";
      EmptyString;
      "Given the recent messages, extract the following information about the requested top mentions:";
      "- ticker: symbol to retrieve mentions for.";
      "- timeWindow: Time window for mentions eg - 1h, 24h, 7d (default: 1h).";
      "- page: Page number for pagination (default: 1).";
      "- pageSize: Number of mentions per page (default: 10).";
      "- includeAccountDetails: Include account details in the response (default: false).";
      EmptyString;
      "Respond with a JSON object containing only the extracted information";
      EmptyString ].

Definition isGetTopMentionsContent (content : JSValue) : Result Error bool :=
  typeof_ (prop content "ticker") === JStr "string"
  &&& (prop content "timeWindow" === void_0
       ||| typeof_ (prop content "timeWindow") === JStr "string")
  &&& (prop content "page" === void_0
       ||| typeof_ (prop content "page") === JStr "number")
  &&& (prop content "pageSize" === void_0
       ||| typeof_ (prop content "pageSize") === JStr "number")
  &&& (prop content "includeAccountDetails" === void_0
       ||| typeof_ (prop content "includeAccountDetails") === JStr "boolean").

Definition elfaGetTopMentionsAction_validate (runtime : World) : M Error bool :=
  validateElfaAiConfig runtime ;; ret true.

Definition elfaGetTopMentionsAction_handler (runtime : World)
    (memory state : JSValue) (callback : bool) : M Error bool :=
  try_catch
    (baseUrl <- runtime_getSetting runtime "ELFA_AI_BASE_URL" ;;
     key <- runtime_getSetting runtime "ELFA_AI_API_KEY" ;;
     let headers := request_headers key in
     updatedState <- refresh_state runtime memory state ;;
     let context := composeContext runtime updatedState getTopMentionsTemplate in
     content <- core_generateObject runtime context getTopMentionsSchema
                  "GetTopMentionsSchema"
                  "Schema for getting top mentions for a specific ticker from Elfa AI API" ;;
     valid <- lift (isGetTopMentionsContent content) ;;
     if negb valid then
       callback_opt callback
         (mkContent "Unable to process get top mentions for the requested ticker. Invalid content provided."
                    None
                    (Some (JObj [("error", JStr "Invalid get top mentions content")]))) ;;
       ret false
     else
       ticker <- destructure content "ticker" None ;;
       timeWindow <- destructure content "timeWindow" (Some (JStr "1h")) ;;
       page <- destructure content "page" (Some (JNum 1)) ;;
       pageSize <- destructure content "pageSize" (Some (JNum 10)) ;;
       includeAccountDetails <- destructure content "includeAccountDetails"
                                  (Some (JBool false)) ;;
       responseData <- axios_get_data runtime (to_string baseUrl ++ "/v1/top-mentions")
                         headers
                         (Some [("ticker", ticker); ("timeWindow", timeWindow);
                                ("page", page); ("pageSize", pageSize);
                                ("includeAccountDetails", includeAccountDetails)]) ;;
       let prompt :=
         "Extracted information and summarize the top tweets for a specific ticker from the Elfa AI API. Make sure you mention details of the tweet such as date, post metrics and the tweet content:"
         ++ nl ++ "            " ++ JSON_stringify_2 responseData in
       callbackMessage <- core_generateText runtime prompt ;;
       callback_opt callback
         (mkContent ("Retrieved top tweets for the " ++ to_string ticker ++ ":"
                     ++ nl ++ callbackMessage ++ nl ++ rule ++ nl
                     ++ "Raw Response: " ++ nl ++ JSON_stringify_2 responseData)
                    (Some "ELFA_GET_TOP_MENTIONS") None) ;;
       ret true)
    (fun error =>
       callback_opt callback
         (mkContent ("Failed to get top mentions for provided ticker from Elfa AI API."
                     ++ nl ++ "Error:" ++ nl ++ message error)
                    (Some "ELFA_GET_TOP_MENTIONS") None) ;;
       ret false).

Definition elfaGetTopMentionsAction : Action :=
  mkAction "ELFA_GET_TOP_MENTIONS"
    ["top mentions"; "get top mentions"; "fetch top mentions"; "get top tweets"]
    "Retrieves top tweets for a given ticker symbol from the Elfa AI API."
    elfaGetTopMentionsAction_validate elfaGetTopMentionsAction_handler.

(** *** src/actions/getSearchMentionsByKeywords.ts *)

Definition getSearchMentionsByKeywordsSchema : ZodObject :=
  [ ("keywords", z_string (Some (1, None)));
    ("from", z_number);
    ("to", z_number);
    ("limit", z_optional z_number) ].

Definition getSearchMentionsByKeywordsTemplate : string :=
  lines
    [ "Respond with a JSON object containing only the extracted information:";
      EmptyString;
      "Example response:";
      "```json";
      "{";
      "    " ++ dq ++ "keywords" ++ dq ++ ": " ++ dq ++ "ai agents" ++ dq ++ ",";
      "    " ++ dq ++ "from" ++ dq ++ ": 1738675001,";
      "    " ++ dq ++ "to" ++ dq ++ ": 1738775001,";
      "    limit: 20";
      "}";
      "```";
      EmptyString;
      "{{recentMessages}}";
      EmptyString;
      "Given the recent messages, extract the following information about the requested search mentions by keywords:";
      "- keywords: Keywords to search for, separated by commas.";
      "- from: Start date as unix timestamp.";
      "- to: End date as unix timestamp.";
      "- limit: Number of tweets to retrieve (default: 20).";
      EmptyString;
      "Respond with a JSON object containing only the extracted information";
      EmptyString ].

Definition isGetSearchMentionsByKeywordsContent (content : JSValue)
    : Result Error bool :=
  typeof_ (prop content "keywords") === JStr "string"
  &&& typeof_ (prop content "from") === JStr "number"
  &&& typeof_ (prop content "to") === JStr "number"
  &&& (typeof_ (prop content "limit") === JStr "number"
       ||| prop content "limit" === void_0).

Definition elfaGetSearchMentionsByKeywordsAction_validate (runtime : World)
    : M Error bool :=
  validateElfaAiConfig runtime ;; ret true.

Definition elfaGetSearchMentionsByKeywordsAction_handler (runtime : World)
    (memory state : JSValue) (callback : bool) : M Error bool :=
  try_catch
    (baseUrl <- runtime_getSetting runtime "ELFA_AI_BASE_URL" ;;
     key <- runtime_getSetting runtime "ELFA_AI_API_KEY" ;;
     let headers := request_headers key in
     updatedState <- refresh_state runtime memory state ;;
     let context :=
       composeContext runtime updatedState getSearchMentionsByKeywordsTemplate in
     content <- core_generateObject runtime context getSearchMentionsByKeywordsSchema
                  "getSearchMentionsByKeywordsSchema"
                  "Schema for searching for tweets by keywords within a specified date range using the Elfa AI API" ;;
     valid <- lift (isGetSearchMentionsByKeywordsContent content) ;;
     if negb valid then
       callback_opt callback
         (mkContent "Unable to search for tweets by the keywords provided. Invalid content provided."
                    None
                    (Some (JObj [("error",
                                  JStr "Invalid get search mentions by keywords content")]))) ;;
       ret false
     else
       keywords <- destructure content "keywords" None ;;
       from <- destructure content "from" None ;;
       to <- destructure content "to" None ;;
       limit <- destructure content "limit" (Some (JNum 20)) ;;
       responseData <- axios_get_data runtime
                         (to_string baseUrl ++ "/v1/mentions/search") headers
                         (Some [("keywords", keywords); ("from", from);
                                ("to", to); ("limit", limit)]) ;;
       let prompt :=
         "Extracted information and summarize the tweets for keywords from the Elfa AI API. Make sure you mention details of the tweet such as date, post metrics and the tweet content:"
         ++ nl ++ "            " ++ JSON_stringify_2 responseData in
       callbackMessage <- core_generateText runtime prompt ;;
       callback_opt callback
         (mkContent ("Retrieved tweets for the " ++ to_string keywords
                     ++ " keywords from the Elfa AI API:"
                     ++ nl ++ callbackMessage ++ nl ++ rule ++ nl
                     ++ "Raw Response: " ++ nl ++ JSON_stringify_2 responseData)
                    (Some "ELFA_SEARCH_MENTIONS_BY_KEYWORDS") None) ;;
       ret true)
    (fun error =>
       callback_opt callback
         (mkContent ("Failed to get tweets for the mentioned keywords from Elfa AI API."
                     ++ nl ++ "Error:" ++ nl ++ message error)
                    (Some "ELFA_SEARCH_MENTIONS_BY_KEYWORDS") None) ;;
       ret false).

Definition elfaGetSearchMentionsByKeywordsAction : Action :=
  mkAction "ELFA_SEARCH_MENTIONS_BY_KEYWORDS"
    ["search mentions"; "find mentions by keywords"; "tweets by keywords"]
    "Searches for tweets by keywords within a specified date range using the Elfa AI API."
    elfaGetSearchMentionsByKeywordsAction_validate
    elfaGetSearchMentionsByKeywordsAction_handler.

(** *** src/actions/getTrendingTokens.ts *)

Definition getTrendingTokensSchema : ZodObject :=
  [ ("timeWindow", z_optional (z_string (Some (2, None))));
    ("page", z_optional z_number);
    ("pageSize", z_optional z_number);
    ("minMentions", z_optional z_number) ].

Definition getTrendingTokensTemplate : string :=
  lines
    [ "Respond with a JSON object containing only the extracted information:";
      EmptyString;
      "Example response:";
      "```json";
      "{";
      "    " ++ dq ++ "timeWindow" ++ dq ++ ": " ++ dq ++ "24h" ++ dq ++ ",";
      "    " ++ dq ++ "page" ++ dq ++ ": 1,";
      "    " ++ dq ++ "pageSize" ++ dq ++ ": 50,";
      "    " ++ dq ++ "minMentions" ++ dq ++ ": 5";
      "}";
      "```";
      EmptyString;
      "{{recentMessages}}";
      EmptyString;
      "Given the recent messages, extract the following information about the trending tokens:";
      "- timeWindow: Time window for mentions.";
      "- page: Page number for pagination.";
      "- pageSize: Number of tokens per page.";
      "- minMentions: Minimum number of mentions for a token to be considered trending.";
      EmptyString;
      "Respond with a JSON object containing only the extracted information";
      EmptyString ].

(** The source compares the result of [typeof], a string, with [void 0]
    four times; [&&] binds tighter than [||]. *)
Definition isGetTrendingTokensContent (content : JSValue) : Result Error bool :=
  typeof_ (prop content "timeWindow") === JStr "string"
  ||| typeof_ (prop content "timeWindow") === void_0
      &&& typeof_ (prop content "page") === JStr "number"
  ||| typeof_ (prop content "page") === void_0
      &&& typeof_ (prop content "pageSize") === JStr "number"
  ||| typeof_ (prop content "pageSize") === void_0
      &&& typeof_ (prop content "minMentions") === JStr "number"
  ||| typeof_ (prop content "minMentions") === void_0.

Definition elfaGetTrendingTokens_validate (runtime : World) : M Error bool :=
  validateElfaAiConfig runtime ;; ret true.

Definition elfaGetTrendingTokens_handler (runtime : World)
    (memory state : JSValue) (callback : bool) : M Error bool :=
  try_catch
    (baseUrl <- runtime_getSetting runtime "ELFA_AI_BASE_URL" ;;
     key <- runtime_getSetting runtime "ELFA_AI_API_KEY" ;;
     let headers := request_headers key in
     updatedState <- refresh_state runtime memory state ;;
     let context := composeContext runtime updatedState getTrendingTokensTemplate in
     content <- core_generateObject runtime context getTrendingTokensSchema
                  "getTrendingTokensSchema"
                  "Schema for getting trending tokens based on mentions from Elfa AI API" ;;
     valid <- lift (isGetTrendingTokensContent content) ;;
     if negb valid then
       callback_opt callback
         (mkContent "Unable to process get trending tokens request. Invalid content provided."
                    None
                    (Some (JObj [("error", JStr "Invalid get trending tokens content")]))) ;;
       ret false
     else
       timeWindow <- destructure content "timeWindow" (Some (JStr "24h")) ;;
       page <- destructure content "page" (Some (JNum 1)) ;;
       pageSize <- destructure content "pageSize" (Some (JNum 50)) ;;
       minMentions <- destructure content "minMentions" (Some (JNum 5)) ;;
       responseData <- axios_get_data runtime
                         (to_string baseUrl ++ "/v1/trending-tokens") headers
                         (Some [("timeWindow", timeWindow); ("page", page);
                                ("pageSize", pageSize); ("minMentions", minMentions)]) ;;
       let prompt :=
         "Extracted information and summarize the trending tokens by twitter mentions from the Elfa AI API.:"
         ++ nl ++ "            " ++ JSON_stringify_2 responseData in
       callbackMessage <- core_generateText runtime prompt ;;
       callback_opt callback
         (mkContent ("Retrieves trending tokens by twitter mentions from the Elfa AI API:"
                     ++ nl ++ callbackMessage ++ nl ++ rule ++ nl
                     ++ "Raw Response: " ++ nl ++ JSON_stringify_2 responseData)
                    (Some "ELFA_GET_TRENDING_TOKENS") None) ;;
       ret true)
    (fun error =>
       callback_opt callback
         (mkContent ("Failed to get trending tokens from Elfa AI API." ++ nl
                     ++ "Error:" ++ nl ++ message error)
                    (Some "ELFA_GET_TRENDING_TOKENS") None) ;;
       ret false).

Definition elfaGetTrendingTokens : Action :=
  mkAction "ELFA_GET_TRENDING_TOKENS"
    ["trending tokens"; "get trending tokens"; "fetch trending tokens"]
    "Retrieves trending tokens based on mentions from the Elfa AI API."
    elfaGetTrendingTokens_validate elfaGetTrendingTokens_handler.

(** *** src/actions/getTwitterAccountStats.ts *)

Definition getTwitterAccountStatsSchema : ZodObject :=
  [ ("username", z_string (Some (1, None))) ].

Definition getTwitterAccountStatsTemplate : string :=
  lines
    [ "Respond with a JSON object containing only the extracted information:";
      EmptyString;
      "Example response:";
      "```json";
      "{";
      "    " ++ dq ++ "username" ++ dq ++ ": " ++ dq ++ "elonmusk" ++ dq ++ ",";
      "}";
      "```";
      EmptyString;
      "{{recentMessages}}";
      EmptyString;
      "Given the recent messages, extract the following information for the requested Twitter account smart stats:";
      "- username: Twitter username to retrieve smart account stats for.";
      EmptyString;
      "Respond with a JSON object containing only the extracted information";
      EmptyString ].

Definition isGetTwitterAccountStatsContent (content : JSValue)
    : Result Error bool :=
  typeof_ (prop content "username") === JStr "string".

Definition elfaGetTwitterAccountStatsAction_validate (runtime : World)
    : M Error bool :=
  validateElfaAiConfig runtime ;; ret true.

Definition elfaGetTwitterAccountStatsAction_handler (runtime : World)
    (memory state : JSValue) (callback : bool) : M Error bool :=
  try_catch
    (baseUrl <- runtime_getSetting runtime "ELFA_AI_BASE_URL" ;;
     key <- runtime_getSetting runtime "ELFA_AI_API_KEY" ;;
     let headers := request_headers key in
     updatedState <- refresh_state runtime memory state ;;
     let context :=
       composeContext runtime updatedState getTwitterAccountStatsTemplate in
     content <- core_generateObject runtime context getTwitterAccountStatsSchema
                  "getTwitterAccountStatsSchema"
                  "Schema for retrieving smart twitter account stats for a specific username using the Elfa AI API" ;;
     valid <- lift (isGetTwitterAccountStatsContent content) ;;
     if negb valid then
       callback_opt callback
         (mkContent "Unable to retieve twitter account stats for the provided username. Invalid content provided."
                    None
                    (Some (JObj [("error",
                                  JStr "Invalid get twitter account stats content")]))) ;;
       ret false
     else
       username <- destructure content "username" None ;;
       responseData <- axios_get_data runtime
                         (to_string baseUrl ++ "/v1/account/smart-stats") headers
                         (Some [("username", username)]) ;;
       let prompt :=
         "Extracted information and summarize the smart account stats for provided username "
         ++ to_string username ++ ":"
         ++ nl ++ "            " ++ JSON_stringify_2 responseData in
       callbackMessage <- core_generateText runtime prompt ;;
       callback_opt callback
         (mkContent ("Retrieved twitter account data for " ++ to_string username
                     ++ " from the Elfa AI API:"
                     ++ nl ++ callbackMessage ++ nl ++ rule ++ nl
                     ++ "Raw Response: " ++ nl ++ JSON_stringify_2 responseData)
                    (Some "ELFA_TWITTER_ACCOUNT_STATS") None) ;;
       ret true)
    (fun error =>
       callback_opt callback
         (mkContent ("Failed to get twitter account data for the mentioned username from Elfa AI API."
                     ++ nl ++ "Error:" ++ nl ++ message error)
                    (Some "ELFA_TWITTER_ACCOUNT_STATS") None) ;;
       ret false).

Definition elfaGetTwitterAccountStatsAction : Action :=
  mkAction "ELFA_TWITTER_ACCOUNT_STATS"
    ["account smart stats"; "smart stats"; "twitter account stats";
     "smart twitter stats"]
    "Retrieves smart stats and social metrics for a specified Twitter account from the Elfa AI API."
    elfaGetTwitterAccountStatsAction_validate
    elfaGetTwitterAccountStatsAction_handler.

(** *** src/index.ts *)

Record Plugin : Type := mkPlugin {
  plugin_name : string;
  plugin_description : string;
  actions : list Action
}.

Definition elfaAiPlugin : Plugin :=
  mkPlugin "elfa-ai"
    "Integrates Elfa AI API into Eliza OS for social media analytics and insights."
    [ elfaPingAction;
      elfaApiKeyStatusAction;
      elfaGetSmartMentions;
      elfaGetTopMentionsAction;
      elfaGetSearchMentionsByKeywordsAction;
      elfaGetTrendingTokens;
      elfaGetTwitterAccountStatsAction ].

(** ** The two shapes of handler

    The seven handlers are written out one by one in the source, but they
    come in two shapes: Ping and Key Status call the API and report; the
    other five refresh the state, extract the parameters, check them, call
    the API, summarise and report.  Each shape is given once here, over a
    descriptor holding what varies, and each handler is shown below to be
    its shape at its descriptor; the properties are then proved once per
    shape. *)

Record DirectDescriptor : Type := mkDirect {
  dd_action : string;
  dd_path : string;
  dd_success_prefix : string;
  dd_info : string;
  dd_error : string;
  dd_failure_head : string
}.

Definition direct (d : DirectDescriptor) (runtime : World)
    (memory state : JSValue) (callback : bool) : M Error bool :=
  try_catch
    (baseUrl <- runtime_getSetting runtime "ELFA_AI_BASE_URL" ;;
     key <- runtime_getSetting runtime "ELFA_AI_API_KEY" ;;
     responseData <- axios_get_data runtime (to_string baseUrl ++ dd_path d)
                       (request_headers key) None ;;
     callback_opt callback
       (mkContent (dd_success_prefix d ++ JSON_stringify responseData)
                  (Some (dd_action d)) None) ;;
     emit (EvLogInfo (dd_info d) responseData) ;;
     ret true)
    (fun error =>
       emit (EvLogError (dd_error d) error) ;;
       callback_opt callback
         (mkContent (dd_failure_head d ++ nl ++ "Error:" ++ nl ++ message error)
                    (Some (dd_action d)) None) ;;
       ret false).

Definition ping_descriptor : DirectDescriptor :=
  mkDirect "ELFA_PING" "/v1/ping"
    "Elfa AI API is up and running. Response: "
    "Elfa AI API is up and running"
    "Failed to ping Elfa AI API"
    "Elfa AI API is down. Please check the API status.".

Definition key_status_descriptor : DirectDescriptor :=
  mkDirect "ELFA_API_KEY_STATUS" "/v1/key-status"
    "Elfa AI API key status. Response: "
    "Elfa AI API key status"
    "Failed to get api key status from Elfa AI API"
    "Failed to get api key status from Elfa AI. Please check the your API key.".

Record Descriptor : Type := mkDescriptor {
  d_action : string;
  d_path : string;
  d_template : string;
  d_schema : ZodObject;
  d_schemaName : string;
  d_schemaDescription : string;
  d_guard : JSValue -> Result Error bool;
  d_invalid_text : string;
  d_invalid_error : string;
  d_bindings : list (string * option JSValue);
  d_prompt_head : Params -> string;
  d_success_head : Params -> string;
  d_failure_head : string
}.

(** The whole [const { ... } = content], binding by binding. *)
Fixpoint destructure_all (content : JSValue)
    (bindings : list (string * option JSValue)) : M Error Params :=
  match bindings with
  | [] => ret []
  | (k, default) :: rest =>
      v <- destructure content k default ;;
      ps <- destructure_all content rest ;;
      ret ((k, v) :: ps)
  end.

Definition pipeline (d : Descriptor) (runtime : World)
    (memory state : JSValue) (callback : bool) : M Error bool :=
  try_catch
    (baseUrl <- runtime_getSetting runtime "ELFA_AI_BASE_URL" ;;
     key <- runtime_getSetting runtime "ELFA_AI_API_KEY" ;;
     updatedState <- refresh_state runtime memory state ;;
     content <- core_generateObject runtime
                  (composeContext runtime updatedState (d_template d))
                  (d_schema d) (d_schemaName d) (d_schemaDescription d) ;;
     valid <- lift (d_guard d content) ;;
     if negb valid then
       callback_opt callback
         (mkContent (d_invalid_text d) None
                    (Some (JObj [("error", JStr (d_invalid_error d))]))) ;;
       ret false
     else
       params <- destructure_all content (d_bindings d) ;;
       responseData <- axios_get_data runtime (to_string baseUrl ++ d_path d)
                         (request_headers key) (Some params) ;;
       callbackMessage <- core_generateText runtime
                            (d_prompt_head d params ++ nl ++ "            "
                             ++ JSON_stringify_2 responseData) ;;
       callback_opt callback
         (mkContent (d_success_head d params ++ nl ++ callbackMessage ++ nl
                     ++ rule ++ nl ++ "Raw Response: " ++ nl
                     ++ JSON_stringify_2 responseData)
                    (Some (d_action d)) None) ;;
       ret true)
    (fun error =>
       callback_opt callback
         (mkContent (d_failure_head d ++ nl ++ "Error:" ++ nl ++ message error)
                    (Some (d_action d)) None) ;;
       ret false).

Definition smart_mentions_descriptor : Descriptor :=
  mkDescriptor "ELFA_GET_SMART_MENTIONS" "/v1/mentions"
    getSmartMentionsTemplate getSmartMentionsSchema
    "GetSmartMentionsSchema"
    "Schema for getting smart mentions from Elfa AI API"
    isGetSmartMentionsContent
    "Unable to process get smart mentions request. Invalid content provided."
    "Invalid get smart mentions content"
    [("limit", Some (JNum 100)); ("offset", Some (JNum 0))]
    (fun _ => "Extracted information and summarize the smart mentions from the Elfa AI API.:")
    (fun _ => "Retrieves tweets by smart accounts with smart engagement from the Elfa AI API:")
    "Failed to get smart mentions from Elfa AI API.".

Definition top_mentions_descriptor : Descriptor :=
  mkDescriptor "ELFA_GET_TOP_MENTIONS" "/v1/top-mentions"
    getTopMentionsTemplate getTopMentionsSchema
    "GetTopMentionsSchema"
    "Schema for getting top mentions for a specific ticker from Elfa AI API"
    isGetTopMentionsContent
    "Unable to process get top mentions for the requested ticker. Invalid content provided."
    "Invalid get top mentions content"
    [("ticker", None); ("timeWindow", Some (JStr "1h")); ("page", Some (JNum 1));
     ("pageSize", Some (JNum 10)); ("includeAccountDetails", Some (JBool false))]
    (fun _ => "Extracted information and summarize the top tweets for a specific ticker from the Elfa AI API. Make sure you mention details of the tweet such as date, post metrics and the tweet content:")
    (fun ps => "Retrieved top tweets for the " ++ to_string (field ps "ticker") ++ ":")
    "Failed to get top mentions for provided ticker from Elfa AI API.".

Definition search_mentions_descriptor : Descriptor :=
  mkDescriptor "ELFA_SEARCH_MENTIONS_BY_KEYWORDS" "/v1/mentions/search"
    getSearchMentionsByKeywordsTemplate getSearchMentionsByKeywordsSchema
    "getSearchMentionsByKeywordsSchema"
    "Schema for searching for tweets by keywords within a specified date range using the Elfa AI API"
    isGetSearchMentionsByKeywordsContent
    "Unable to search for tweets by the keywords provided. Invalid content provided."
    "Invalid get search mentions by keywords content"
    [("keywords", None); ("from", None); ("to", None); ("limit", Some (JNum 20))]
    (fun _ => "Extracted information and summarize the tweets for keywords from the Elfa AI API. Make sure you mention details of the tweet such as date, post metrics and the tweet content:")
    (fun ps => "Retrieved tweets for the " ++ to_string (field ps "keywords")
               ++ " keywords from the Elfa AI API:")
    "Failed to get tweets for the mentioned keywords from Elfa AI API.".

Definition trending_tokens_descriptor : Descriptor :=
  mkDescriptor "ELFA_GET_TRENDING_TOKENS" "/v1/trending-tokens"
    getTrendingTokensTemplate getTrendingTokensSchema
    "getTrendingTokensSchema"
    "Schema for getting trending tokens based on mentions from Elfa AI API"
    isGetTrendingTokensContent
    "Unable to process get trending tokens request. Invalid content provided."
    "Invalid get trending tokens content"
    [("timeWindow", Some (JStr "24h")); ("page", Some (JNum 1));
     ("pageSize", Some (JNum 50)); ("minMentions", Some (JNum 5))]
    (fun _ => "Extracted information and summarize the trending tokens by twitter mentions from the Elfa AI API.:")
    (fun _ => "Retrieves trending tokens by twitter mentions from the Elfa AI API:")
    "Failed to get trending tokens from Elfa AI API.".

Definition account_stats_descriptor : Descriptor :=
  mkDescriptor "ELFA_TWITTER_ACCOUNT_STATS" "/v1/account/smart-stats"
    getTwitterAccountStatsTemplate getTwitterAccountStatsSchema
    "getTwitterAccountStatsSchema"
    "Schema for retrieving smart twitter account stats for a specific username using the Elfa AI API"
    isGetTwitterAccountStatsContent
    "Unable to retieve twitter account stats for the provided username. Invalid content provided."
    "Invalid get twitter account stats content"
    [("username", None)]
    (fun ps => "Extracted information and summarize the smart account stats for provided username "
               ++ to_string (field ps "username") ++ ":")
    (fun ps => "Retrieved twitter account data for " ++ to_string (field ps "username")
               ++ " from the Elfa AI API:")
    "Failed to get twitter account data for the mentioned username from Elfa AI API.".

(** The handlers of the plugin, by shape. *)
Definition direct_actions : list (Action * DirectDescriptor) :=
  [ (elfaPingAction, ping_descriptor);
    (elfaApiKeyStatusAction, key_status_descriptor) ].

Definition extracting_actions : list (Action * Descriptor) :=
  [ (elfaGetSmartMentions, smart_mentions_descriptor);
    (elfaGetTopMentionsAction, top_mentions_descriptor);
    (elfaGetSearchMentionsByKeywordsAction, search_mentions_descriptor);
    (elfaGetTrendingTokens, trending_tokens_descriptor);
    (elfaGetTwitterAccountStatsAction, account_stats_descriptor) ].


(** ** Runs

    What a run of each shape can look like: one constructor per way through
    the handler, with the calls made and the value returned. *)

Definition BASE_URL : string := "ELFA_AI_BASE_URL".
Definition API_KEY : string := "ELFA_AI_API_KEY".

(** The events of [callback?.(response)]. *)
Definition said (callback : bool) (response : Content) : Trace :=
  if callback then [EvCallback response] else [].

Section DirectRuns.
Variables (d : DirectDescriptor) (w : World) (callback : bool).

Definition direct_url : string := to_string (getSetting w BASE_URL) ++ dd_path d.
Definition direct_headers : Headers := request_headers (getSetting w API_KEY).

Inductive DirectRun : Trace -> Result Error bool -> Prop :=
| DirectSucceeds (data : JSValue) :
    axios_get w direct_url direct_headers None = Return data ->
    DirectRun
      ([EvGetSetting BASE_URL; EvGetSetting API_KEY;
        EvAxiosGet direct_url direct_headers None (Return data)]
       ++ said callback
            (mkContent (dd_success_prefix d ++ JSON_stringify data)
                       (Some (dd_action d)) None)
       ++ [EvLogInfo (dd_info d) data])%list
      (Return true)
| DirectFails (e : Error) :
    axios_get w direct_url direct_headers None = Throw e ->
    DirectRun
      ([EvGetSetting BASE_URL; EvGetSetting API_KEY;
        EvAxiosGet direct_url direct_headers None (Throw e);
        EvLogError (dd_error d) e]
       ++ said callback
            (mkContent (dd_failure_head d ++ nl ++ "Error:" ++ nl ++ message e)
                       (Some (dd_action d)) None))%list
      (Return false).

End DirectRuns.

Section PipelineRuns.
Variables (d : Descriptor) (w : World) (memory state : JSValue) (callback : bool).

Definition pipeline_url : string := to_string (getSetting w BASE_URL) ++ d_path d.
Definition pipeline_headers : Headers := request_headers (getSetting w API_KEY).

(** The state call the handler makes, and what it settles to. *)
Definition state_result : Result Error JSValue :=
  if negb (truthy state) then composeState w memory
  else updateRecentMessageState w state.

Definition state_event (r : Result Error JSValue) : Event :=
  if negb (truthy state) then EvComposeState memory r
  else EvUpdateRecentMessageState state r.

Definition extract_context (u : JSValue) : string :=
  composeContext w u (d_template d).

Definition extract_result (u : JSValue) : Result Error JSValue :=
  generateObject w (extract_context u) (d_schema d) (d_schemaName d)
    (d_schemaDescription d).

Definition extract_event (u : JSValue) (r : Result Error JSValue) : Event :=
  EvGenerateObject (extract_context u) (d_schema d) (d_schemaName d)
    (d_schemaDescription d) r.

Definition summary_prompt (ps : Params) (data : JSValue) : string :=
  d_prompt_head d ps ++ nl ++ "            " ++ JSON_stringify_2 data.

Definition success_text (ps : Params) (summary : string) (data : JSValue)
    : string :=
  d_success_head d ps ++ nl ++ summary ++ nl ++ rule ++ nl
  ++ "Raw Response: " ++ nl ++ JSON_stringify_2 data.

Definition failure_said (e : Error) : Trace :=
  said callback
    (mkContent (d_failure_head d ++ nl ++ "Error:" ++ nl ++ message e)
               (Some (d_action d)) None).

Definition invalid_said : Trace :=
  said callback
    (mkContent (d_invalid_text d) None
               (Some (JObj [("error", JStr (d_invalid_error d))]))).

Definition settings_read : Trace := [EvGetSetting BASE_URL; EvGetSetting API_KEY].

Inductive PipelineRun : Trace -> Result Error bool -> Prop :=
| RunStateFails e :
    state_result = Throw e ->
    PipelineRun (settings_read ++ [state_event (Throw e)] ++ failure_said e)%list
                (Return false)
| RunExtractFails u e :
    state_result = Return u ->
    extract_result u = Throw e ->
    PipelineRun (settings_read
                 ++ [state_event (Return u); extract_event u (Throw e)]
                 ++ failure_said e)%list
                (Return false)
| RunGuardThrows u c e :
    state_result = Return u ->
    extract_result u = Return c ->
    d_guard d c = Throw e ->
    PipelineRun (settings_read
                 ++ [state_event (Return u); extract_event u (Return c)]
                 ++ failure_said e)%list
                (Return false)
| RunInvalid u c :
    state_result = Return u ->
    extract_result u = Return c ->
    d_guard d c = Return false ->
    PipelineRun (settings_read
                 ++ [state_event (Return u); extract_event u (Return c)]
                 ++ invalid_said)%list
                (Return false)
| RunDestructureThrows u c e :
    state_result = Return u ->
    extract_result u = Return c ->
    d_guard d c = Return true ->
    destructure_all c (d_bindings d) = ([], Throw e) ->
    PipelineRun (settings_read
                 ++ [state_event (Return u); extract_event u (Return c)]
                 ++ failure_said e)%list
                (Return false)
| RunDispatchFails u c ps e :
    state_result = Return u ->
    extract_result u = Return c ->
    d_guard d c = Return true ->
    destructure_all c (d_bindings d) = ([], Return ps) ->
    axios_get w pipeline_url pipeline_headers (Some ps) = Throw e ->
    PipelineRun (settings_read
                 ++ [state_event (Return u); extract_event u (Return c);
                     EvAxiosGet pipeline_url pipeline_headers (Some ps) (Throw e)]
                 ++ failure_said e)%list
                (Return false)
| RunSummaryFails u c ps data e :
    state_result = Return u ->
    extract_result u = Return c ->
    d_guard d c = Return true ->
    destructure_all c (d_bindings d) = ([], Return ps) ->
    axios_get w pipeline_url pipeline_headers (Some ps) = Return data ->
    generateText w (summary_prompt ps data) = Throw e ->
    PipelineRun (settings_read
                 ++ [state_event (Return u); extract_event u (Return c);
                     EvAxiosGet pipeline_url pipeline_headers (Some ps) (Return data);
                     EvGenerateText (summary_prompt ps data) (Throw e)]
                 ++ failure_said e)%list
                (Return false)
| RunSucceeds u c ps data summary :
    state_result = Return u ->
    extract_result u = Return c ->
    d_guard d c = Return true ->
    destructure_all c (d_bindings d) = ([], Return ps) ->
    axios_get w pipeline_url pipeline_headers (Some ps) = Return data ->
    generateText w (summary_prompt ps data) = Return summary ->
    PipelineRun (settings_read
                 ++ [state_event (Return u); extract_event u (Return c);
                     EvAxiosGet pipeline_url pipeline_headers (Some ps) (Return data);
                     EvGenerateText (summary_prompt ps data) (Return summary)]
                 ++ said callback
                      (mkContent (success_text ps summary data)
                                 (Some (d_action d)) None))%list
                (Return true).

End PipelineRuns.

(** ** Reading an event log *)

(** The steps of the specification's orchestrator. *)
Inductive Step : Type :=
| Configure     (* a settings lookup *)
| ReadEnv       (* a read of the process environment *)
| RefreshState  (* composeState / updateRecentMessageState *)
| Extract       (* generateObject *)
| Dispatch      (* axios.get *)
| Summarize     (* generateText *)
| Emit          (* the callback *)
| Log.          (* the logger *)

Definition step_of (ev : Event) : Step :=
  match ev with
  | EvGetSetting _ => Configure
  | EvEnv _ => ReadEnv
  | EvComposeState _ _ | EvUpdateRecentMessageState _ _ => RefreshState
  | EvGenerateObject _ _ _ _ _ => Extract
  | EvAxiosGet _ _ _ _ => Dispatch
  | EvGenerateText _ _ => Summarize
  | EvCallback _ => Emit
  | EvLogInfo _ _ | EvLogError _ _ => Log
  end.

Definition steps (t : Trace) : list Step := map step_of t.

Definition Step_eqb (a b : Step) : bool :=
  match a, b with
  | Configure, Configure | ReadEnv, ReadEnv | RefreshState, RefreshState
  | Extract, Extract | Dispatch, Dispatch | Summarize, Summarize
  | Emit, Emit | Log, Log => true
  | _, _ => false
  end.

(** Does the log contain a step of this kind? *)
Definition has_step (s : Step) (t : Trace) : bool :=
  existsb (fun ev => Step_eqb (step_of ev) s) t.

(** The HTTP requests of a log: URL, headers, query parameters. *)
Definition requests (t : Trace) : list (string * Headers * option Params) :=
  flat_map (fun ev => match ev with
                      | EvAxiosGet url headers params _ => [(url, headers, params)]
                      | _ => []
                      end) t.

(** The objects handed to the callback. *)
Definition emitted (t : Trace) : list Content :=
  flat_map (fun ev => match ev with
                      | EvCallback c => [c]
                      | _ => []
                      end) t.

(** The errors thrown by the calls of a log. *)
Definition thrown (ev : Event) : option Error :=
  match ev with
  | EvComposeState _ (Throw e) | EvUpdateRecentMessageState _ (Throw e)
  | EvGenerateObject _ _ _ _ (Throw e) | EvAxiosGet _ _ _ (Throw e)
  | EvGenerateText _ (Throw e) => Some e
  | _ => None
  end.

Definition failures (t : Trace) : list Error :=
  flat_map (fun ev => match thrown ev with Some e => [e] | None => [] end) t.

(** [needle] occurs in [hay]. *)
Definition Contains (needle hay : string) : Prop :=
  exists pre post, hay = pre ++ needle ++ post.


(** ** The specification's vocabulary *)

(** A configuration field as the resolver is specified to resolve it: the
    runtime setting when it is set (truthy), otherwise the environment
    variable. *)
Definition resolved (w : World) (k : string) : JSValue :=
  if truthy (getSetting w k) then getSetting w k
  else match process_env w k with
       | Some s => JStr s
       | None => JUndefined
       end.

(** A field is present when it is a non-empty string; otherwise it is
    missing or empty. *)
Definition present (v : JSValue) : bool :=
  match v with
  | JStr s => negb (String.eqb s EmptyString)
  | _ => false
  end.

(** The endpoint of each action, by action name (the table of external
    interfaces). *)
Definition endpoints : list (string * string) :=
  [ ("ELFA_PING", "/v1/ping");
    ("ELFA_API_KEY_STATUS", "/v1/key-status");
    ("ELFA_GET_SMART_MENTIONS", "/v1/mentions");
    ("ELFA_GET_TOP_MENTIONS", "/v1/top-mentions");
    ("ELFA_SEARCH_MENTIONS_BY_KEYWORDS", "/v1/mentions/search");
    ("ELFA_GET_TRENDING_TOKENS", "/v1/trending-tokens");
    ("ELFA_TWITTER_ACCOUNT_STATS", "/v1/account/smart-stats") ].

Fixpoint assoc (k : string) (table : list (string * string)) : option string :=
  match table with
  | [] => None
  | (k', v) :: rest => if String.eqb k k' then Some v else assoc k rest
  end.

Definition endpoint_of (a : Action) : string :=
  match assoc (name a) endpoints with
  | Some path => path
  | None => EmptyString
  end.

(** An extraction output is malformed for a schema when a field has the
    wrong type or a required field is missing: zod reports an
    [invalid_type] issue (a string that is merely too short is not
    malformed in this sense). *)
Definition malformed (schema : ZodObject) (content : JSValue) : bool :=
  match parse schema content with
  | Return _ => false
  | Throw errors =>
      existsb (fun i => String.eqb (issue_code i) "invalid_type") errors
  end.

(** The query parameters the specification asks for: the extracted value of
    each binding, its default where the value is omitted. *)
Definition expected_params (bindings : list (string * option JSValue))
    (props : list (string * JSValue)) : Params :=
  map (fun kd => (fst kd, with_default (field props (fst kd)) (snd kd))) bindings.

(** ** Sample worlds *)

(** Nothing is configured and every call fails. *)
Definition bare_world : World :=
  mkWorld (fun _ => JUndefined) (fun _ => None)
    (fun _ => Throw (new_Error "no state"))
    (fun _ => Throw (new_Error "no state"))
    (fun _ template => template)
    (fun _ _ _ _ => Throw (new_Error "no model"))
    (fun _ => Throw (new_Error "no model"))
    (fun _ _ _ => Throw (new_Error "Network Error")).

(** A world in which every call succeeds: the settings and the environment
    are given as tables, the model extracts [extracted] and writes
    [summary], and the API answers [data]. *)
Definition sample_world (settings : list (string * JSValue))
    (env : list (string * string)) (extracted data : JSValue)
    (summary : string) : World :=
  mkWorld (fun k => field settings k) (fun k => assoc k env)
    (fun _ => Return (JObj [("recentMessages", JStr "user: hello")]))
    (fun s => Return s)
    (fun _ template => template)
    (fun _ _ _ _ => Return extracted)
    (fun _ => Return summary)
    (fun _ _ _ => Return data).

Definition sample_settings : list (string * JSValue) :=
  [ ("ELFA_AI_BASE_URL", JStr "https://api.elfa.ai");
    ("ELFA_AI_API_KEY", JStr "secret") ].

Definition sample_env : list (string * string) :=
  [ ("ELFA_AI_BASE_URL", "https://api.elfa.ai");
    ("ELFA_AI_API_KEY", "secret") ].

Definition status_ok : JSValue := JObj [("status", JStr "ok")].

(** The API answers 401: axios rejects with its error. *)
Definition unauthorized_world (extracted : JSValue) : World :=
  mkWorld (fun k => field sample_settings k) (fun _ => None)
    (fun _ => Return (JObj []))
    (fun s => Return s)
    (fun _ template => template)
    (fun _ _ _ _ => Return extracted)
    (fun _ => Return "summary")
    (fun _ _ _ => Throw (new_Error "Request failed with status code 401")).

(** The settings lookup finds nothing; the base URL and the key are in the
    process environment only. *)
Definition environment_only_world : World :=
  sample_world [] sample_env JUndefined status_ok "summary".


(** Every call succeeds and the settings hold the base URL and the key. *)
Definition configured_world (extracted : JSValue) (summary : string) : World :=
  sample_world sample_settings [] extracted status_ok summary.

(** An invocation with no earlier state and with a callback. *)
Definition run_of (a : Action) (w : World) : M Error bool :=
  handler a w JUndefined JUndefined true.

(** Trending Tokens content whose [page] is a string. *)
Definition trending_page_abc : JSValue :=
  JObj [("timeWindow", JStr "24h"); ("page", JStr "abc")].

(** ** The example dialogues of the actions

    The [examples] of each action: dialogues of messages
    [{ user, content: { text, action? } }], kept beside the descriptors. *)

Record ExampleMessage : Type := mkExample {
  ex_user : string;
  ex_text : string;
  ex_action : option string
}.

Definition elfaPingAction_examples : list (list ExampleMessage) :=
  [ [ mkExample "{{user}}" "ping elfa" None;
      mkExample "{{agent}}" "Elfa AI API is up and running." (Some "ELFA_PING") ] ].

Definition elfaApiKeyStatusAction_examples : list (list ExampleMessage) :=
  [ [ mkExample "{{user}}" "elfa api key status" None;
      mkExample "{{agent}}" "Elfa AI API key status retrieved successfully"
        (Some "ELFA_API_KEY_STATUS") ] ].

Definition elfaGetSmartMentions_examples : list (list ExampleMessage) :=
  [ [ mkExample "{{user}}" "get smart mentions" None;
      mkExample "{{agent}}" "Smart mentions retrieved successfully"
        (Some "ELFA_GET_SMART_MENTIONS") ] ].

Definition elfaGetTopMentionsAction_examples : list (list ExampleMessage) :=
  [ [ mkExample "{{user}}" "get top mentions for SOL" None;
      mkExample "{{agent}}" "Top mentions for the ticker SOL are retrieved."
        (Some "ELFA_GET_TOP_MENTIONS") ] ].

Definition elfaGetSearchMentionsByKeywordsAction_examples
    : list (list ExampleMessage) :=
  [ [ mkExample "{{user}}"
        "search mentions for ai agents between 1738675001 and 1738775001" None;
      mkExample "{{agent}}" "Search mentions by keywords completed successfully"
        (Some "ELFA_SEARCH_MENTIONS_BY_KEYWORDS") ] ].

Definition elfaGetTrendingTokens_examples : list (list ExampleMessage) :=
  [ [ mkExample "{{user}}" "get trending tokens" None;
      mkExample "{{agent}}" "ternding tokens retrieved successfully"
        (Some "ELFA_GET_TRENDING_TOKENS") ] ].

Definition elfaGetTwitterAccountStatsAction_examples
    : list (list ExampleMessage) :=
  [ [ mkExample "{{user}}" "get smart stats for Twitter account" None;
      mkExample "{{agent}}" "Retrieved twitter account data completed successfully"
        (Some "ELFA_TWITTER_ACCOUNT_STATS") ] ].

(** The examples of the plugin's actions, in the order of [actions]. *)
Definition action_examples : list (Action * list (list ExampleMessage)) :=
  [ (elfaPingAction, elfaPingAction_examples);
    (elfaApiKeyStatusAction, elfaApiKeyStatusAction_examples);
    (elfaGetSmartMentions, elfaGetSmartMentions_examples);
    (elfaGetTopMentionsAction, elfaGetTopMentionsAction_examples);
    (elfaGetSearchMentionsByKeywordsAction,
     elfaGetSearchMentionsByKeywordsAction_examples);
    (elfaGetTrendingTokens, elfaGetTrendingTokens_examples);
    (elfaGetTwitterAccountStatsAction,
     elfaGetTwitterAccountStatsAction_examples) ].

(** A dialogue that shows the action: the user speaks untagged, then the
    agent answers tagged with the action's name. *)
Definition shows_action (action_name : string) (dialogue : list ExampleMessage)
    : bool :=
  match dialogue with
  | [u; g] =>
      String.eqb (ex_user u) "{{user}}"
      && match ex_action u with None => true | Some _ => false end
      && String.eqb (ex_user g) "{{agent}}"
      && match ex_action g with
         | Some n => String.eqb n action_name
         | None => false
         end
  | _ => false
  end.

(** ** More ways to read a log *)

Definition is_callback (ev : Event) : bool :=
  match ev with
  | EvCallback _ => true
  | _ => false
  end.

(** The log with the callback calls left out. *)
Definition without_callbacks (t : Trace) : Trace :=
  filter (fun ev => negb (is_callback ev)) t.



(** The message of a failed run of an extracting handler. *)
Definition failure_message (d : Descriptor) (e : Error) : Content :=
  mkContent (d_failure_head d ++ nl ++ "Error:" ++ nl ++ message e)
            (Some (d_action d)) None.

(** The message of a run stopped by the guard. *)
Definition invalid_message (d : Descriptor) : Content :=
  mkContent (d_invalid_text d) None
            (Some (JObj [("error", JStr (d_invalid_error d))])).

(** * Properties *)

(** ** Strings and the monad *)

Lemma append_assoc (a b c : string) : (a ++ b) ++ c = a ++ (b ++ c).
Proof. induction a as [|x a IH]; simpl; [reflexivity | now rewrite IH]. Qed.

Lemma append_nil_r (a : string) : a ++ EmptyString = a.
Proof. induction a as [|x a IH]; simpl; [reflexivity | now rewrite IH]. Qed.

Lemma bind_ext {E A B} (m : M E A) (f g : A -> M E B) :
  (forall a, f a = g a) -> bind m f = bind m g.
Proof. intros H. destruct m as [t [a|e]]; simpl; [now rewrite H | reflexivity]. Qed.

Lemma bind_ret_l {E A B} (a : A) (f : A -> M E B) : bind (ret a) f = f a.
Proof. unfold bind, ret. now destruct (f a). Qed.

Lemma bind_throw_l {E A B} (e : E) (f : A -> M E B) : bind (throw e) f = throw e.
Proof. reflexivity. Qed.

Lemma try_catch_ext {E E' A} (m m' : M E A) (h : E -> M E' A) :
  m = m' -> try_catch m h = try_catch m' h.
Proof. now intros ->. Qed.

(** ** Each handler is its shape at its descriptor *)

Ltac step := apply bind_ext; intro.

Ltac unfold_descriptor :=
  cbn [d_action d_path d_template d_schema d_schemaName d_schemaDescription
       d_guard d_invalid_text d_invalid_error d_bindings d_prompt_head
       d_success_head d_failure_head
       smart_mentions_descriptor top_mentions_descriptor
       search_mentions_descriptor trending_tokens_descriptor
       account_stats_descriptor].

(** Both sides make the same calls up to the guard; past it, the bindings
    of the destructuring are compared one content shape at a time. *)
Ltac same_pipeline :=
  unfold pipeline; unfold_descriptor;
  apply try_catch_ext; do 4 step;
  match goal with
  | |- bind (lift ?g) _ = _ =>
      apply bind_ext; intros [|]; [|reflexivity]
  end;
  match goal with
  | |- context [destructure ?c _ _] => destruct c
  end;
  cbn [destructure destructure_all negb];
  rewrite ?bind_ret_l, ?bind_throw_l; try reflexivity;
  cbn [field lookup String.eqb Ascii.eqb Bool.eqb];
  repeat (rewrite ?append_assoc; first [reflexivity | step]).

Lemma ping_is_direct runtime memory state callback :
  elfaPingAction_handler runtime memory state callback
  = direct ping_descriptor runtime memory state callback.
Proof. reflexivity. Qed.

Lemma key_status_is_direct runtime memory state callback :
  elfaApiKeyStatusAction_handler runtime memory state callback
  = direct key_status_descriptor runtime memory state callback.
Proof. reflexivity. Qed.

Lemma smart_mentions_is_pipeline runtime memory state callback :
  elfaGetSmartMentions_handler runtime memory state callback
  = pipeline smart_mentions_descriptor runtime memory state callback.
Proof. unfold elfaGetSmartMentions_handler. same_pipeline. Qed.

Lemma top_mentions_is_pipeline runtime memory state callback :
  elfaGetTopMentionsAction_handler runtime memory state callback
  = pipeline top_mentions_descriptor runtime memory state callback.
Proof. unfold elfaGetTopMentionsAction_handler. same_pipeline. Qed.

Lemma search_mentions_is_pipeline runtime memory state callback :
  elfaGetSearchMentionsByKeywordsAction_handler runtime memory state callback
  = pipeline search_mentions_descriptor runtime memory state callback.
Proof. unfold elfaGetSearchMentionsByKeywordsAction_handler. same_pipeline. Qed.

Lemma trending_tokens_is_pipeline runtime memory state callback :
  elfaGetTrendingTokens_handler runtime memory state callback
  = pipeline trending_tokens_descriptor runtime memory state callback.
Proof. unfold elfaGetTrendingTokens_handler. same_pipeline. Qed.

Lemma account_stats_is_pipeline runtime memory state callback :
  elfaGetTwitterAccountStatsAction_handler runtime memory state callback
  = pipeline account_stats_descriptor runtime memory state callback.
Proof. unfold elfaGetTwitterAccountStatsAction_handler. same_pipeline. Qed.

(** The handlers of each list are the shape at their descriptor. *)
Lemma direct_action_shape a dd :
  In (a, dd) direct_actions ->
  endpoint_of a = dd_path dd
  /\ forall w m s cb, handler a w m s cb = direct dd w m s cb.
Proof.
  simpl. intros [H|[H|[]]]; inversion H; subst; split;
    auto using ping_is_direct, key_status_is_direct.
Qed.

Lemma extracting_action_shape a d :
  In (a, d) extracting_actions ->
  endpoint_of a = d_path d
  /\ forall w m s cb, handler a w m s cb = pipeline d w m s cb.
Proof.
  simpl. intros [H|[H|[H|[H|[H|[]]]]]]; inversion H; subst; split;
    auto using smart_mentions_is_pipeline, top_mentions_is_pipeline,
      search_mentions_is_pipeline, trending_tokens_is_pipeline,
      account_stats_is_pipeline.
Qed.

(** The seven actions of the plugin, sorted by shape. *)
Lemma action_sorted (a : Action) :
  In a (actions elfaAiPlugin) ->
  (exists dd, In (a, dd) direct_actions)
  \/ (exists d, In (a, d) extracting_actions).
Proof.
  simpl. intros [<-|[<-|[<-|[<-|[<-|[<-|[<-|[]]]]]]]].
  - left. exists ping_descriptor. simpl. auto.
  - left. exists key_status_descriptor. simpl. auto.
  - right. exists smart_mentions_descriptor. simpl. auto.
  - right. exists top_mentions_descriptor. simpl. auto.
  - right. exists search_mentions_descriptor. simpl. auto 10.
  - right. exists trending_tokens_descriptor. simpl. auto 10.
  - right. exists account_stats_descriptor. simpl. auto 10.
Qed.

Lemma action_shape (a : Action) :
  In a (actions elfaAiPlugin) ->
  (exists dd, In (a, dd) direct_actions
              /\ endpoint_of a = dd_path dd
              /\ forall w m s cb, handler a w m s cb = direct dd w m s cb)
  \/ (exists d, In (a, d) extracting_actions
                /\ endpoint_of a = d_path d
                /\ forall w m s cb, handler a w m s cb = pipeline d w m s cb).
Proof.
  intros Ha. destruct (action_sorted a Ha) as [(dd & H)|(d & H)].
  - left. exists dd. split; [assumption|]. now apply direct_action_shape.
  - right. exists d. split; [assumption|]. now apply extracting_action_shape.
Qed.

Lemma validate_shape (a : Action) (w : World) :
  In a (actions elfaAiPlugin) ->
  validate a w = (validateElfaAiConfig w ;; ret true).
Proof.
  simpl. intros [<-|[<-|[<-|[<-|[<-|[<-|[<-|[]]]]]]]]; reflexivity.
Qed.

(** ** Every run of a shape is one of its listed runs *)

Ltac close_run F :=
  match goal with
  | callback : bool |- _ => destruct callback; [exact (F true) | exact (F false)]
  end.

Lemma direct_run d w memory state callback :
  DirectRun d w callback (fst (direct d w memory state callback))
                         (snd (direct d w memory state callback)).
Proof.
  unfold direct, runtime_getSetting, axios_get_data, callback_opt.
  cbn [bind emit ret app].
  destruct (axios_get w _ _ _) as [data|e] eqn:Hget.
  - close_run (fun cb => DirectSucceeds d w cb data Hget).
  - close_run (fun cb => DirectFails d w cb e Hget).
Qed.

Lemma destructure_silent c k default : fst (destructure c k default) = [].
Proof. destruct c; reflexivity. Qed.

Lemma destructure_all_silent c bindings : fst (destructure_all c bindings) = [].
Proof.
  induction bindings as [|[k default] rest IH]; [reflexivity|].
  cbn [destructure_all].
  pose proof (destructure_silent c k default) as Hd.
  destruct (destructure c k default) as [t [v|e]]; simpl in Hd; subst t;
    [|reflexivity].
  unfold bind at 1.
  destruct (destructure_all c rest) as [t' [ps|e]]; simpl in IH; subst t';
    reflexivity.
Qed.

Lemma refresh_state_run w memory state :
  refresh_state w memory state
  = ([state_event memory state (state_result w memory state)],
     state_result w memory state).
Proof.
  unfold refresh_state, state_event, state_result.
  destruct (negb (truthy state)); reflexivity.
Qed.

Lemma pipeline_run d w memory state callback :
  PipelineRun d w memory state callback
    (fst (pipeline d w memory state callback))
    (snd (pipeline d w memory state callback)).
Proof.
  unfold pipeline. rewrite refresh_state_run.
  unfold runtime_getSetting, core_generateObject, axios_get_data,
    core_generateText, callback_opt, lift.
  destruct (state_result w memory state) as [u|e] eqn:Hs.
  2:{ close_run (fun cb => RunStateFails d w memory state cb e Hs). }
  cbn [bind emit ret app].
  destruct (generateObject w _ _ _ _) as [c|e] eqn:Hx.
  2:{ close_run (fun cb => RunExtractFails d w memory state cb u e Hs Hx). }
  destruct (d_guard d c) as [[|]|e] eqn:Hg.
  3:{ close_run (fun cb => RunGuardThrows d w memory state cb u c e Hs Hx Hg). }
  2:{ close_run (fun cb => RunInvalid d w memory state cb u c Hs Hx Hg). }
  cbn [negb].
  pose proof (destructure_all_silent c (d_bindings d)) as Hsil.
  destruct (destructure_all c (d_bindings d)) as [t0 [ps|e]] eqn:Hd;
    simpl in Hsil; subst t0.
  2:{ close_run (fun cb => RunDestructureThrows d w memory state cb u c e Hs Hx Hg Hd). }
  cbn [bind].
  destruct (axios_get w _ _ _) as [data|e] eqn:Ha.
  2:{ close_run (fun cb => RunDispatchFails d w memory state cb u c ps e Hs Hx Hg Hd Ha). }
  destruct (generateText w _) as [summary|e] eqn:Ht.
  2:{ close_run (fun cb => RunSummaryFails d w memory state cb u c ps data e Hs Hx Hg Hd Ha Ht). }
  close_run (fun cb => RunSucceeds d w memory state cb u c ps data summary Hs Hx Hg Hd Ha Ht).
Qed.

(** ** Occurrences in strings *)

Lemma Contains_refl s : Contains s s.
Proof. exists EmptyString, EmptyString. simpl. now rewrite append_nil_r. Qed.

Lemma Contains_append_l n p h : Contains n h -> Contains n (p ++ h).
Proof.
  intros (pre & post & ->). exists (p ++ pre), post. now rewrite append_assoc.
Qed.

Lemma Contains_append_r n h q : Contains n h -> Contains n (h ++ q).
Proof.
  intros (pre & post & ->). exists pre, (post ++ q).
  now rewrite !append_assoc.
Qed.

Lemma Contains_prefix a b h : Contains (a ++ b) h -> Contains a h.
Proof.
  intros (pre & post & ->). exists pre, (b ++ post). now rewrite append_assoc.
Qed.

Lemma concat_cons sep x xs :
  String.concat sep (x :: xs)
  = match xs with [] => x | _ => x ++ sep ++ String.concat sep xs end.
Proof. destruct xs; reflexivity. Qed.

Lemma concat_contains sep x xs : In x xs -> Contains x (String.concat sep xs).
Proof.
  induction xs as [|y ys IH]; [intros []|].
  intros [->|Hin]; rewrite concat_cons.
  - destruct ys; [apply Contains_refl|].
    apply Contains_append_r, Contains_refl.
  - destruct ys as [|z zs]; [destruct Hin|].
    apply Contains_append_l, Contains_append_l, IH, Hin.
Qed.

(** ** The configuration resolver *)

(** Every issue of the list has its line in the message. *)
Lemma errorMessages_contains errors i :
  In i errors ->
  Contains (String.concat "." (issue_path i) ++ ": " ++ issue_message i)
           (errorMessages errors).
Proof.
  intros Hin. unfold errorMessages. apply concat_contains.
  apply (in_map (fun err => String.concat "." (issue_path err) ++ ": "
                            ++ issue_message err)), Hin.
Qed.

(** The two fields of the schema: no issue exactly when the value is a
    non-empty string, one issue at the field's path otherwise. *)
Lemma required_string_present k msg v :
  present v = true -> issues_of (z_string (Some (1, Some msg))) [k] v = [].
Proof. destruct v as [| | | |[|c s]| |]; simpl; congruence. Qed.

Lemma required_string_missing k msg v :
  present v = false ->
  exists code m, issues_of (z_string (Some (1, Some msg))) [k] v
                 = [mkIssue code [k] m].
Proof.
  destruct v as [| | | |[|c s]| |]; simpl; try congruence; intros _;
    eexists; eexists; reflexivity.
Qed.

Lemma env_schema_issues b k :
  object_issues elfaAiEnvSchema [(BASE_URL, b); (API_KEY, k)]
  = (issues_of (z_string (Some (1, Some "Base URL is required for interacting with Elfa AI")))
       [BASE_URL] b
     ++ issues_of (z_string (Some (1, Some "API key is required for interacting with Elfa AI")))
       [API_KEY] k)%list.
Proof. unfold object_issues. simpl. now rewrite app_nil_r. Qed.

(** What the resolver settles to, in terms of the resolved fields. *)
Lemma validateElfaAiConfig_result w :
  snd (validateElfaAiConfig w)
  = match object_issues elfaAiEnvSchema
            [(BASE_URL, resolved w BASE_URL); (API_KEY, resolved w API_KEY)] with
    | [] => Return (JObj [(BASE_URL, resolved w BASE_URL);
                          (API_KEY, resolved w API_KEY)])
    | errors =>
        Throw (new_Error ("Elfa AI configuration validation failed:" ++ nl
                          ++ errorMessages errors))
    end.
Proof.
  unfold validateElfaAiConfig, resolved, runtime_getSetting, process_env_read,
    parse_or_throw, parse, BASE_URL, API_KEY.
  cbn [bind emit ret app].
  destruct (truthy (getSetting w "ELFA_AI_BASE_URL"));
    cbn [bind emit ret app];
    destruct (truthy (getSetting w "ELFA_AI_API_KEY"));
    cbn [bind emit ret app];
    match goal with
    | |- context [object_issues ?s ?ps] => destruct (object_issues s ps) eqn:Hi
    end; reflexivity.
Qed.

(** The resolver's outcome, case by case. *)
Lemma validateElfaAiConfig_cases w :
  (present (resolved w BASE_URL) = true ->
   present (resolved w API_KEY) = true ->
   snd (validateElfaAiConfig w)
   = Return (JObj [(BASE_URL, resolved w BASE_URL);
                   (API_KEY, resolved w API_KEY)]))
  /\ (present (resolved w BASE_URL) = false
      \/ present (resolved w API_KEY) = false ->
      exists e,
        snd (validateElfaAiConfig w) = Throw e
        /\ (exists lines_,
              message e = "Elfa AI configuration validation failed:" ++ nl ++ lines_)
        /\ (present (resolved w BASE_URL) = false ->
            Contains ("ELFA_AI_BASE_URL" ++ ": ") (message e))
        /\ (present (resolved w API_KEY) = false ->
            Contains ("ELFA_AI_API_KEY" ++ ": ") (message e))).
Proof.
  rewrite validateElfaAiConfig_result, env_schema_issues.
  set (b := resolved w BASE_URL). set (k := resolved w API_KEY).
  split.
  - intros Hb Hk.
    now rewrite (required_string_present _ _ _ Hb), (required_string_present _ _ _ Hk).
  - intros Hmiss.
    assert (Hline : forall errors i key m,
               In i errors -> issue_path i = [key] -> issue_message i = m ->
               Contains (key ++ ": ")
                 ("Elfa AI configuration validation failed:" ++ nl
                  ++ errorMessages errors)).
    { intros errors i key m Hin Hp Hm.
      apply Contains_append_l, Contains_append_l.
      pose proof (errorMessages_contains errors i Hin) as Hc.
      rewrite Hp in Hc. cbn [String.concat] in Hc.
      rewrite <- append_assoc in Hc. now apply Contains_prefix in Hc. }
    destruct (present b) eqn:Hb, (present k) eqn:Hk.
    + destruct Hmiss; discriminate.
    + rewrite (required_string_present _ _ _ Hb).
      destruct (required_string_missing API_KEY
                  "API key is required for interacting with Elfa AI" _ Hk)
        as (code & m & ->).
      cbn [app]. eexists. split; [reflexivity|]. cbn [message].
      split; [eexists; reflexivity|]. split; [discriminate|].
      intros _. eapply Hline; [left; reflexivity| |]; reflexivity.
    + rewrite (required_string_present _ _ _ Hk).
      destruct (required_string_missing BASE_URL
                  "Base URL is required for interacting with Elfa AI" _ Hb)
        as (code & m & ->).
      cbn [app]. eexists. split; [reflexivity|]. cbn [message].
      split; [eexists; reflexivity|]. split; [|discriminate].
      intros _. eapply Hline; [left; reflexivity| |]; reflexivity.
    + destruct (required_string_missing BASE_URL
                  "Base URL is required for interacting with Elfa AI" _ Hb)
        as (code & m & ->).
      destruct (required_string_missing API_KEY
                  "API key is required for interacting with Elfa AI" _ Hk)
        as (code' & m' & ->).
      cbn [app]. eexists. split; [reflexivity|]. cbn [message].
      split; [eexists; reflexivity|]. split; intros _.
      * eapply Hline; [left; reflexivity| |]; reflexivity.
      * eapply Hline; [right; left; reflexivity| |]; reflexivity.
Qed.

(** [validate] of every action: [true] or the resolver's error, never
    [false]. *)
Lemma validate_result a w :
  In a (actions elfaAiPlugin) ->
  snd (validate a w)
  = match snd (validateElfaAiConfig w) with
    | Return _ => Return true
    | Throw e => Throw e
    end.
Proof.
  intros Hin. rewrite (validate_shape a w Hin).
  destruct (validateElfaAiConfig w) as [t [v|e]]; reflexivity.
Qed.

(** ** The content guards *)

Ltac unfold_guard :=
  unfold isGetSmartMentionsContent, isGetTopMentionsContent,
    isGetSearchMentionsByKeywordsContent, isGetTrendingTokensContent,
    isGetTwitterAccountStatsContent;
  cbn [prop typeof_ strict_equals and_then or_otherwise rbind strict_eq void_0].

(** On an object the trending-tokens guard is the test of [timeWindow]
    alone: the four comparisons of a [typeof] with [void 0] are false. *)
Lemma trending_guard_object props :
  isGetTrendingTokensContent (JObj props)
  = Return (String.eqb (typeof (field props "timeWindow")) "string").
Proof.
  unfold_guard.
  destruct (String.eqb (typeof (field props "timeWindow")) "string");
    reflexivity.
Qed.

(** A guard that says yes was given an object. *)
Lemma guard_true_object d c :
  In d (map snd extracting_actions) ->
  d_guard d c = Return true -> exists props, c = JObj props.
Proof.
  simpl. intros [<-|[<-|[<-|[<-|[<-|[]]]]]]; cbn [d_guard];
    destruct c; try (unfold_guard; discriminate); eauto.
Qed.

Lemma destructure_all_object props bindings :
  destructure_all (JObj props) bindings
  = ([], Return (expected_params bindings props)).
Proof.
  induction bindings as [|[k default] rest IH]; [reflexivity|].
  cbn [destructure_all destructure]. rewrite bind_ret_l, IH. reflexivity.
Qed.

(** Malformed content is turned away by four of the five guards. *)
Ltac split_field v :=
  destruct v; cbn [typeof strict_eq String.eqb Ascii.eqb Bool.eqb];
  try (intros _; discriminate).

Ltac no_invalid_type :=
  cbn [issues_of invalid_type app existsb issue_code];
  repeat match goal with
         | |- context [Nat.ltb ?a ?b] => destruct (Nat.ltb a b)
         end;
  cbn; discriminate.

Lemma smart_guard_rejects_malformed c :
  malformed getSmartMentionsSchema c = true ->
  isGetSmartMentionsContent c <> Return true.
Proof.
  destruct c as [| | | | | |props]; try (intros _; unfold_guard; discriminate).
  unfold malformed, parse, object_issues, getSmartMentionsSchema.
  cbn [flat_map fst snd]. unfold_guard.
  generalize (field props "limit") (field props "offset"). intros v1 v2.
  split_field v1. split_field v2. no_invalid_type.
Qed.

Lemma top_guard_rejects_malformed c :
  malformed getTopMentionsSchema c = true ->
  isGetTopMentionsContent c <> Return true.
Proof.
  destruct c as [| | | | | |props]; try (intros _; unfold_guard; discriminate).
  unfold malformed, parse, object_issues, getTopMentionsSchema.
  cbn [flat_map fst snd]. unfold_guard.
  generalize (field props "ticker") (field props "timeWindow")
    (field props "page") (field props "pageSize")
    (field props "includeAccountDetails").
  intros v1 v2 v3 v4 v5.
  split_field v1; split_field v2; split_field v3; split_field v4;
    split_field v5; no_invalid_type.
Qed.

Lemma search_guard_rejects_malformed c :
  malformed getSearchMentionsByKeywordsSchema c = true ->
  isGetSearchMentionsByKeywordsContent c <> Return true.
Proof.
  destruct c as [| | | | | |props]; try (intros _; unfold_guard; discriminate).
  unfold malformed, parse, object_issues, getSearchMentionsByKeywordsSchema.
  cbn [flat_map fst snd]. unfold_guard.
  generalize (field props "keywords") (field props "from")
    (field props "to") (field props "limit").
  intros v1 v2 v3 v4.
  split_field v1; split_field v2; split_field v3; split_field v4;
    no_invalid_type.
Qed.

Lemma stats_guard_rejects_malformed c :
  malformed getTwitterAccountStatsSchema c = true ->
  isGetTwitterAccountStatsContent c <> Return true.
Proof.
  destruct c as [| | | | | |props]; try (intros _; unfold_guard; discriminate).
  unfold malformed, parse, object_issues, getTwitterAccountStatsSchema.
  cbn [flat_map fst snd]. unfold_guard.
  generalize (field props "username"). intros v1.
  split_field v1; no_invalid_type.
Qed.

(** ** Reading the runs *)

(** Replace a run of a shape by its cases. *)
Ltac direct_cases d w m s cb :=
  let R := fresh "R" in
  pose proof (direct_run d w m s cb) as R;
  destruct (direct d w m s cb) as [t r]; cbn [fst snd] in *;
  destruct R.

Ltac pipeline_cases d w m s cb :=
  let R := fresh "R" in
  pose proof (pipeline_run d w m s cb) as R;
  destruct (pipeline d w m s cb) as [t r]; cbn [fst snd] in *;
  destruct R.

(** Make the log of a case a literal list. *)
Ltac concrete_log s cb :=
  unfold settings_read, failure_said, invalid_said, said, state_event,
    extract_event;
  destruct cb; destruct (negb (truthy s));
  cbn [app steps map step_of requests emitted failures thrown flat_map
       has_step existsb Step_eqb orb].

Lemma direct_requests d w m s cb :
  requests (fst (direct d w m s cb)) = [(direct_url d w, direct_headers w, None)].
Proof.
  direct_cases d w m s cb; unfold said; destruct cb; reflexivity.
Qed.

(** A request of the second shape was preceded by an extraction the guard
    accepted, and carries the destructured parameters. *)
Lemma pipeline_requests d w m s cb req :
  In req (requests (fst (pipeline d w m s cb))) ->
  exists u c ps,
    state_result w m s = Return u
    /\ extract_result d w u = Return c
    /\ d_guard d c = Return true
    /\ destructure_all c (d_bindings d) = ([], Return ps)
    /\ req = (pipeline_url d w, pipeline_headers w, Some ps).
Proof.
  pipeline_cases d w m s cb; concrete_log s cb;
    intros Hin; try destruct Hin as [<-|[]]; try destruct Hin;
    exists u, c, ps; auto.
Qed.

(** No guard acceptance, no request. *)
Lemma pipeline_halts d w m s cb :
  (forall u c, state_result w m s = Return u ->
               extract_result d w u = Return c ->
               d_guard d c <> Return true) ->
  requests (fst (pipeline d w m s cb)) = []
  /\ snd (pipeline d w m s cb) = Return false.
Proof.
  intros Hno.
  pipeline_cases d w m s cb; concrete_log s cb; try (split; reflexivity);
    exfalso; eapply Hno; eauto.
Qed.

(** Every request of every action goes to the settings' base URL followed
    by the action's endpoint, with the two headers, the key being the
    settings' key. *)
Lemma handler_requests a w m s cb req :
  In a (actions elfaAiPlugin) ->
  In req (requests (fst (handler a w m s cb))) ->
  exists params,
    req = (to_string (getSetting w BASE_URL) ++ endpoint_of a,
           [("Content-Type", JStr "application/json");
            ("x-elfa-api-key", getSetting w API_KEY)],
           params).
Proof.
  intros Ha.
  destruct (action_shape a Ha) as [(dd & _ & -> & ->)|(d & _ & -> & ->)].
  - rewrite direct_requests. intros [<-|[]]. now exists None.
  - intros Hin. apply pipeline_requests in Hin.
    destruct Hin as (u & c & ps & _ & _ & _ & _ & ->). now exists (Some ps).
Qed.


(** * The claims *)

(** ** Configuration *)

Lemma validateElfaAiConfig_trace w :
  fst (validateElfaAiConfig w)
  = ([EvGetSetting BASE_URL]
     ++ (if truthy (getSetting w BASE_URL) then [] else [EvEnv BASE_URL])
     ++ [EvGetSetting API_KEY]
     ++ (if truthy (getSetting w API_KEY) then [] else [EvEnv API_KEY]))%list.
Proof.
  unfold validateElfaAiConfig, runtime_getSetting, process_env_read,
    parse_or_throw, parse, BASE_URL, API_KEY.
  cbn [bind emit ret app].
  destruct (truthy (getSetting w "ELFA_AI_BASE_URL"));
    cbn [bind emit ret app];
    destruct (truthy (getSetting w "ELFA_AI_API_KEY"));
    cbn [bind emit ret app];
    match goal with
    | |- context [object_issues ?s ?ps] => destruct (object_issues s ps)
    end; reflexivity.
Qed.

(** C6 (confirmed).  The configuration resolver takes each field from the
    runtime setting when it is set (truthy) and otherwise from the
    environment variable, which it reads only then.  When both resolved
    fields are non-empty strings it returns the object holding them; when
    either is missing or empty it throws an error whose message starts with
    the fixed header and has a line for every missing or empty field, not
    just the first. *)
Theorem C6_resolver_settings_then_environment (w : World) :
  fst (validateElfaAiConfig w)
  = ([EvGetSetting BASE_URL]
     ++ (if truthy (getSetting w BASE_URL) then [] else [EvEnv BASE_URL])
     ++ [EvGetSetting API_KEY]
     ++ (if truthy (getSetting w API_KEY) then [] else [EvEnv API_KEY]))%list
  /\ (present (resolved w BASE_URL) = true ->
      present (resolved w API_KEY) = true ->
      snd (validateElfaAiConfig w)
      = Return (JObj [(BASE_URL, resolved w BASE_URL);
                      (API_KEY, resolved w API_KEY)]))
  /\ (present (resolved w BASE_URL) = false
      \/ present (resolved w API_KEY) = false ->
      exists e,
        snd (validateElfaAiConfig w) = Throw e
        /\ (exists lines_,
              message e = "Elfa AI configuration validation failed:" ++ nl ++ lines_)
        /\ (present (resolved w BASE_URL) = false ->
            Contains ("ELFA_AI_BASE_URL" ++ ": ") (message e))
        /\ (present (resolved w API_KEY) = false ->
            Contains ("ELFA_AI_API_KEY" ++ ": ") (message e))).
Proof.
  split; [apply validateElfaAiConfig_trace | apply validateElfaAiConfig_cases].
Qed.

(** The settings give the key, the environment the base URL; and nothing
    is configured at all. *)
Lemma C6_witness :
  snd (validateElfaAiConfig
         (sample_world [("ELFA_AI_API_KEY", JStr "secret")]
                       [("ELFA_AI_BASE_URL", "https://api.elfa.ai")]
                       JUndefined status_ok "summary"))
  = Return (JObj [("ELFA_AI_BASE_URL", JStr "https://api.elfa.ai");
                  ("ELFA_AI_API_KEY", JStr "secret")])
  /\ exists e,
       snd (validateElfaAiConfig bare_world) = Throw e
       /\ Contains "ELFA_AI_BASE_URL: " (message e)
       /\ Contains "ELFA_AI_API_KEY: " (message e).
Proof.
  split.
  - apply (proj1 (proj2 (C6_resolver_settings_then_environment
                           (sample_world [("ELFA_AI_API_KEY", JStr "secret")]
                              [("ELFA_AI_BASE_URL", "https://api.elfa.ai")]
                              JUndefined status_ok "summary"))));
      reflexivity.
  - destruct (proj2 (proj2 (C6_resolver_settings_then_environment bare_world))
                (or_introl eq_refl)) as (e & He & _ & Hb & Hk).
    exists e. split; [exact He|].
    split; [apply Hb | apply Hk]; reflexivity.
Defined.

(** C1 (as stated, refuted).  With nothing configured, [validate] of the
    Ping action does not return [false]: it throws the resolver's error. *)
Lemma C1_validate_throws_instead_of_false :
  In elfaPingAction (actions elfaAiPlugin)
  /\ present (resolved bare_world BASE_URL) = false
  /\ snd (validate elfaPingAction bare_world)
     = Throw (new_Error ("Elfa AI configuration validation failed:" ++ nl
                         ++ "ELFA_AI_BASE_URL: Required" ++ nl
                         ++ "ELFA_AI_API_KEY: Required"))
  /\ snd (validate elfaPingAction bare_world) <> Return false.
Proof.
  split; [now left|]. split; [reflexivity|]. split; [reflexivity|discriminate].
Qed.

(** C1 (amended).  For each of the seven actions, [validate] never returns
    [false]: it returns [true] when the base URL and the API key both
    resolve to non-empty strings, and when either is missing or empty it
    throws the resolver's error, whose message has a line for every missing
    or empty field. *)
Theorem C1_validate_throws_listing_every_missing_field (a : Action) (w : World) :
  In a (actions elfaAiPlugin) ->
  snd (validate a w) <> Return false
  /\ (present (resolved w BASE_URL) = true ->
      present (resolved w API_KEY) = true ->
      snd (validate a w) = Return true)
  /\ (present (resolved w BASE_URL) = false
      \/ present (resolved w API_KEY) = false ->
      exists e,
        snd (validate a w) = Throw e
        /\ (present (resolved w BASE_URL) = false ->
            Contains ("ELFA_AI_BASE_URL" ++ ": ") (message e))
        /\ (present (resolved w API_KEY) = false ->
            Contains ("ELFA_AI_API_KEY" ++ ": ") (message e))).
Proof.
  intros Ha. rewrite (validate_result a w Ha).
  destruct (validateElfaAiConfig_cases w) as [Hok Hmiss].
  split; [|split].
  - destruct (snd (validateElfaAiConfig w)); discriminate.
  - intros Hb Hk. now rewrite (Hok Hb Hk).
  - intros H. destruct (Hmiss H) as (e & -> & _ & Hb & Hk).
    exists e. auto.
Qed.

Lemma C1_witness :
  snd (validate elfaGetTopMentionsAction
         (configured_world JUndefined "summary"))
  = Return true
  /\ exists e,
       snd (validate elfaGetTopMentionsAction
              (sample_world [("ELFA_AI_BASE_URL", JStr "https://api.elfa.ai")]
                            [("ELFA_AI_API_KEY", EmptyString)]
                            JUndefined status_ok "summary"))
       = Throw e
       /\ Contains "ELFA_AI_API_KEY: " (message e).
Proof.
  assert (Hin : In elfaGetTopMentionsAction (actions elfaAiPlugin))
    by (simpl; auto).
  split.
  - apply (proj1 (proj2 (C1_validate_throws_listing_every_missing_field
                           elfaGetTopMentionsAction _ Hin))); reflexivity.
  - destruct (proj2 (proj2 (C1_validate_throws_listing_every_missing_field
                              elfaGetTopMentionsAction
                              (sample_world
                                 [("ELFA_AI_BASE_URL", JStr "https://api.elfa.ai")]
                                 [("ELFA_AI_API_KEY", EmptyString)]
                                 JUndefined status_ok "summary") Hin))
                (or_intror eq_refl)) as (e & He & _ & Hk).
    exists e. split; [exact He|]. apply Hk. reflexivity.
Defined.

(** ** The trending-tokens guard *)

(** C4 (confirmed).  The trending-tokens validity check returns [true] for
    every input whose [timeWindow] is a string, whatever [page], [pageSize]
    and [minMentions] are, present or not. *)
Theorem C4_trending_guard_true_on_string_timeWindow (content : JSValue) (s : string) :
  prop content "timeWindow" = Return (JStr s) ->
  isGetTrendingTokensContent content = Return true.
Proof.
  intros H. unfold isGetTrendingTokensContent. rewrite H. reflexivity.
Qed.

Lemma C4_witness :
  isGetTrendingTokensContent
    (JObj [("timeWindow", JStr "24h"); ("page", JStr "abc");
           ("pageSize", JNull); ("minMentions", JBool true)])
  = Return true.
Proof.
  apply (C4_trending_guard_true_on_string_timeWindow _ "24h"). reflexivity.
Defined.

(** ** Extraction and dispatch *)


(** The Top Mentions scenario: only the ticker is extracted. *)
Example top_mentions_sol_scenario :
  requests (fst (run_of elfaGetTopMentionsAction
                   (configured_world (JObj [("ticker", JStr "SOL")]) "summary")))
  = [("https://api.elfa.ai/v1/top-mentions",
      [("Content-Type", JStr "application/json");
       ("x-elfa-api-key", JStr "secret")],
      Some [("ticker", JStr "SOL"); ("timeWindow", JStr "1h");
            ("page", JNum 1); ("pageSize", JNum 10);
            ("includeAccountDetails", JBool false)])].
Proof. now vm_compute. Qed.

(** C2 (the code departs from it).  When the extraction for Smart Mentions
    leaves out [limit] or [offset], the handler sends no request at all:
    the guard wants both to be numbers, so the defaults 100 and 0 of the
    destructuring are never used; the handler reports invalid content and
    returns [false]. *)
Theorem C2_smart_mentions_omitted_fields_rejected
    (w : World) (memory state : JSValue) (callback : bool)
    (u : JSValue) (props : list (string * JSValue)) :
  state_result w memory state = Return u ->
  extract_result smart_mentions_descriptor w u = Return (JObj props) ->
  field props "limit" = JUndefined \/ field props "offset" = JUndefined ->
  let run := handler elfaGetSmartMentions w memory state callback in
  snd run = Return false
  /\ requests (fst run) = []
  /\ emitted (fst run)
     = if callback
       then [mkContent
               "Unable to process get smart mentions request. Invalid content provided."
               None
               (Some (JObj [("error", JStr "Invalid get smart mentions content")]))]
       else [].
Proof.
  intros Hs Hx Hmiss run. subst run. cbn [handler elfaGetSmartMentions].
  rewrite smart_mentions_is_pipeline.
  assert (Hg : d_guard smart_mentions_descriptor (JObj props) = Return false).
  { cbn [d_guard smart_mentions_descriptor]. unfold_guard.
    destruct Hmiss as [-> | ->]; cbn;
      [reflexivity | destruct (String.eqb (typeof (field props "limit")) "number");
                     reflexivity]. }
  pipeline_cases smart_mentions_descriptor w memory state callback;
    try congruence;
    match goal with
    | H1 : state_result _ _ _ = Return ?a, H2 : state_result _ _ _ = Return ?b |- _ =>
        assert (a = b) by congruence; subst
    end;
    match goal with
    | H1 : extract_result _ _ _ = Return ?a, H2 : extract_result _ _ _ = Return ?b |- _ =>
        assert (a = b) by congruence; subst
    end; try congruence.
  concrete_log state callback; auto.
Qed.

Lemma C2_witness :
  snd (run_of elfaGetSmartMentions (configured_world (JObj []) "summary"))
  = Return false
  /\ requests (fst (run_of elfaGetSmartMentions
                       (configured_world (JObj []) "summary"))) = [].
Proof.
  destruct (C2_smart_mentions_omitted_fields_rejected
              (configured_world (JObj []) "summary")
              JUndefined JUndefined true
              (JObj [("recentMessages", JStr "user: hello")]) []
              eq_refl eq_refl (or_introl eq_refl)) as (Hr & Hq & _).
  split; assumption.
Defined.

(** Malformed content never reaches the API in four of the five extracting
    handlers. *)
Lemma malformed_extraction_halts a d w m s cb :
  In (a, d) [ (elfaGetSmartMentions, smart_mentions_descriptor);
              (elfaGetTopMentionsAction, top_mentions_descriptor);
              (elfaGetSearchMentionsByKeywordsAction, search_mentions_descriptor);
              (elfaGetTwitterAccountStatsAction, account_stats_descriptor) ] ->
  (forall u c, state_result w m s = Return u ->
               extract_result d w u = Return c ->
               malformed (d_schema d) c = true) ->
  requests (fst (handler a w m s cb)) = []
  /\ snd (handler a w m s cb) = Return false.
Proof.
  intros Hin Hmal.
  assert (Hsh : (forall w m s cb, handler a w m s cb = pipeline d w m s cb)
                /\ forall c, malformed (d_schema d) c = true ->
                             d_guard d c <> Return true).
  { simpl in Hin.
    destruct Hin as [H|[H|[H|[H|[]]]]]; inversion H; subst; simpl; split;
      auto using smart_mentions_is_pipeline, top_mentions_is_pipeline,
        search_mentions_is_pipeline, account_stats_is_pipeline,
        smart_guard_rejects_malformed, top_guard_rejects_malformed,
        search_guard_rejects_malformed, stats_guard_rejects_malformed. }
  destruct Hsh as [Heq Hrej]. rewrite Heq.
  apply pipeline_halts. intros u c Hs Hx. apply Hrej. eapply Hmal; eauto.
Qed.

(** The Search Mentions scenario: [from] and [to] but no [keywords]. *)
Example search_mentions_missing_keywords_scenario :
  requests (fst (run_of elfaGetSearchMentionsByKeywordsAction
                   (configured_world
                      (JObj [("from", JNum 1738675001); ("to", JNum 1738775001)])
                      "summary"))) = []
  /\ snd (run_of elfaGetSearchMentionsByKeywordsAction
            (configured_world
               (JObj [("from", JNum 1738675001); ("to", JNum 1738775001)])
               "summary")) = Return false.
Proof. now vm_compute. Qed.

(** C3 (the code departs from it).  Trending Tokens content with a string
    [timeWindow] and a [page] that is a string is malformed for the
    schema, yet the handler sends the request, with the string as [page],
    and returns [true]. *)
Theorem C3_trending_malformed_content_dispatched :
  malformed getTrendingTokensSchema trending_page_abc = true
  /\ requests (fst (run_of elfaGetTrendingTokens
                       (configured_world trending_page_abc "summary")))
     = [("https://api.elfa.ai/v1/trending-tokens",
         [("Content-Type", JStr "application/json");
          ("x-elfa-api-key", JStr "secret")],
         Some [("timeWindow", JStr "24h"); ("page", JStr "abc");
               ("pageSize", JNum 50); ("minMentions", JNum 5)])]
  /\ snd (run_of elfaGetTrendingTokens
            (configured_world trending_page_abc "summary")) = Return true.
Proof. now vm_compute. Qed.

(** ** The order of the steps *)

(** C5 (as stated, refuted).  A successful Ping makes two settings lookups,
    one request, one callback and one logger call: it neither extracts
    parameters nor summarises.  The same holds for Key Status. *)
Lemma C5_ping_neither_extracts_nor_summarises :
  In elfaPingAction (actions elfaAiPlugin)
  /\ snd (run_of elfaPingAction (configured_world JUndefined "summary"))
     = Return true
  /\ steps (fst (run_of elfaPingAction (configured_world JUndefined "summary")))
     = [Configure; Configure; Dispatch; Emit; Log]
  /\ has_step Extract
       (fst (run_of elfaPingAction (configured_world JUndefined "summary")))
     = false
  /\ has_step Summarize
       (fst (run_of elfaPingAction (configured_world JUndefined "summary")))
     = false
  /\ snd (run_of elfaApiKeyStatusAction (configured_world JUndefined "summary"))
     = Return true
  /\ steps (fst (run_of elfaApiKeyStatusAction
                   (configured_world JUndefined "summary")))
     = [Configure; Configure; Dispatch; Emit; Log].
Proof. split; [now left|]. now vm_compute. Qed.

(** C5 (amended).  A handler first reads the two settings.  The Ping and
    Key Status handlers then send the request, emit their message and log;
    a successful run of theirs is exactly these steps.  The five other
    handlers then refresh the state, extract the parameters with their
    schema, check them, send the request, summarise and emit the combined
    message; a successful run of theirs is exactly these steps, in this
    order, and when the extracted content fails the check the run stops
    after the extraction with the invalid-content message and [false]. *)
Theorem C5_steps_in_order (a : Action) (w : World) (memory state : JSValue) :
  In a (actions elfaAiPlugin) ->
  let run := handler a w memory state true in
  ((exists dd, In (a, dd) direct_actions)
   \/ (exists d, In (a, d) extracting_actions))
  /\ (forall dd,
         In (a, dd) direct_actions ->
         snd run = Return true ->
         steps (fst run) = [Configure; Configure; Dispatch; Emit; Log])
  /\ (forall d,
         In (a, d) extracting_actions ->
         (snd run = Return true ->
          steps (fst run)
          = [Configure; Configure; RefreshState; Extract; Dispatch;
             Summarize; Emit])
         /\ (forall u c,
                state_result w memory state = Return u ->
                extract_result d w u = Return c ->
                d_guard d c = Return false ->
                snd run = Return false
                /\ steps (fst run)
                   = [Configure; Configure; RefreshState; Extract; Emit]
                /\ emitted (fst run)
                   = [mkContent (d_invalid_text d) None
                        (Some (JObj [("error", JStr (d_invalid_error d))]))])).
Proof.
  intros Ha run. subst run.
  split; [now apply action_sorted|]. split.
  - intros dd Hdd. destruct (direct_action_shape a dd Hdd) as [_ ->].
    direct_cases dd w memory state true; [reflexivity | discriminate].
  - intros d Hd. destruct (extracting_action_shape a d Hd) as [_ ->].
    split.
    + pipeline_cases d w memory state true; try discriminate.
      intros _. unfold settings_read, said, state_event, extract_event.
      destruct (negb (truthy state)); reflexivity.
    + intros u c Hs Hx Hg.
      pipeline_cases d w memory state true;
        try congruence;
        repeat match goal with
        | H1 : ?x = Return ?a, H2 : ?x = Return ?b |- _ =>
            assert (a = b) by congruence; subst; clear H2
        end; try congruence.
      unfold settings_read, invalid_said, said, state_event, extract_event.
      destruct (negb (truthy state)); auto.
Qed.

Lemma C5_witness :
  steps (fst (run_of elfaGetTwitterAccountStatsAction
                (configured_world (JObj [("username", JStr "elonmusk")])
                   "summary")))
  = [Configure; Configure; RefreshState; Extract; Dispatch; Summarize; Emit].
Proof.
  assert (Hin : In elfaGetTwitterAccountStatsAction (actions elfaAiPlugin))
    by (simpl; auto 10).
  assert (Hd : In (elfaGetTwitterAccountStatsAction, account_stats_descriptor)
                  extracting_actions) by (simpl; auto 10).
  apply (proj1 (proj2 (proj2 (C5_steps_in_order elfaGetTwitterAccountStatsAction
                                (configured_world
                                   (JObj [("username", JStr "elonmusk")])
                                   "summary")
                                JUndefined JUndefined Hin))
                 account_stats_descriptor Hd)).
  reflexivity.
Defined.

(** ** The success message *)




(** ** Requests *)

(** The Ping scenario: the settings hold the base URL and the key, the API
    answers 200 with the object whose [status] is [ok]. *)
Example ping_scenario :
  requests (fst (run_of elfaPingAction (configured_world JUndefined "summary")))
  = [("https://api.elfa.ai/v1/ping",
      [("Content-Type", JStr "application/json");
       ("x-elfa-api-key", JStr "secret")],
      None)]
  /\ snd (run_of elfaPingAction (configured_world JUndefined "summary"))
     = Return true
  /\ exists c,
       emitted (fst (run_of elfaPingAction (configured_world JUndefined "summary")))
       = [c]
       /\ Contains (dq ++ "ok" ++ dq) (text c).
Proof.
  split; [now vm_compute|]. split; [now vm_compute|].
  eexists. split; [now vm_compute|].
  exists ("Elfa AI API is up and running. Response: {" ++ dq ++ "status" ++ dq ++ ":"), "}".
  now vm_compute.
Qed.

(** C8 (the code departs from it).  With the base URL and the API key given
    by the environment only, the configuration resolves to them and
    [validate] returns [true]; yet Ping, whose handler looks the two up in
    the settings alone, requests [undefined/v1/ping] with an undefined
    [x-elfa-api-key] header. *)
Theorem C8_ping_request_ignores_environment_configuration :
  snd (validateElfaAiConfig environment_only_world)
  = Return (JObj [("ELFA_AI_BASE_URL", JStr "https://api.elfa.ai");
                  ("ELFA_AI_API_KEY", JStr "secret")])
  /\ snd (validate elfaPingAction environment_only_world) = Return true
  /\ requests (fst (run_of elfaPingAction environment_only_world))
     = [("undefined/v1/ping",
         [("Content-Type", JStr "application/json");
          ("x-elfa-api-key", JUndefined)],
         None)].
Proof. now vm_compute. Qed.

(** ** Errors *)

(** The 401 scenario. *)
Example unauthorized_scenario :
  snd (run_of elfaGetTwitterAccountStatsAction
         (unauthorized_world (JObj [("username", JStr "elonmusk")])))
  = Return false
  /\ emitted (fst (run_of elfaGetTwitterAccountStatsAction
                     (unauthorized_world (JObj [("username", JStr "elonmusk")]))))
     = [mkContent ("Failed to get twitter account data for the mentioned username from Elfa AI API."
                   ++ nl ++ "Error:" ++ nl
                   ++ "Request failed with status code 401")
                  (Some "ELFA_TWITTER_ACCOUNT_STATS") None].
Proof. now vm_compute. Qed.



(** ** Settings and environment *)



(** ** JSON.stringify on samples *)

Example stringify_status_ok :
  JSON_stringify status_ok
  = "{" ++ dq ++ "status" ++ dq ++ ":" ++ dq ++ "ok" ++ dq ++ "}".
Proof. reflexivity. Qed.

Example stringify_2_nested :
  JSON_stringify_2 (JObj [("a", JNum 1); ("u", JUndefined);
                          ("b", JArr [JNum (-2); JUndefined; JObj []])])
  = lines [ "{";
            "  " ++ dq ++ "a" ++ dq ++ ": 1,";
            "  " ++ dq ++ "b" ++ dq ++ ": [";
            "    -2,";
            "    null,";
            "    {}";
            "  ]";
            "}" ].
Proof. reflexivity. Qed.

(** * Further properties of the handlers *)

(** ** Helpers *)

Ltac unify_runs :=
  repeat match goal with
         | H1 : ?x = Return ?a, H2 : ?x = Return ?b |- _ =>
             assert (a = b) by congruence; subst; clear H2
         | H1 : ?x = (_, Return ?a), H2 : ?x = (_, Return ?b) |- _ =>
             assert (a = b) by congruence; subst; clear H2
         end.

(** Make the log of a case a literal list, the callback being given. *)
Ltac concrete_log_said s :=
  unfold settings_read, failure_said, invalid_said, said, state_event,
    extract_event;
  destruct (negb (truthy s));
  cbn [app steps map step_of requests emitted failures thrown flat_map
       has_step existsb Step_eqb orb].

(** The tag of the descriptor is the action's name. *)
Lemma direct_action_tag a dd :
  In (a, dd) direct_actions -> dd_action dd = name a.
Proof. simpl. intros [H|[H|[]]]; inversion H; reflexivity. Qed.

Lemma extracting_action_tag a d :
  In (a, d) extracting_actions -> d_action d = name a.
Proof.
  simpl. intros [H|[H|[H|[H|[H|[]]]]]]; inversion H; reflexivity.
Qed.

Lemma extracting_descriptor_listed a d :
  In (a, d) extracting_actions -> In d (map snd extracting_actions).
Proof. intros H. apply (in_map snd) in H. exact H. Qed.

(** An action has one shape only. *)
Lemma shapes_disjoint a dd d :
  In (a, dd) direct_actions -> In (a, d) extracting_actions -> False.
Proof.
  intros Hdd Hd.
  pose proof (direct_action_tag a dd Hdd) as H1.
  pose proof (extracting_action_tag a d Hd) as H2.
  rewrite <- H2 in H1. clear - Hdd Hd H1. simpl in Hdd, Hd.
  repeat match goal with
         | H : _ \/ _ |- _ => destruct H
         | H : False |- _ => destruct H
         | H : (_, _) = (_, _) |- _ => inversion H; clear H; subst
         end; discriminate.
Qed.

(** ** Requests *)

(** X1.  One invocation sends at most one HTTP request: there is no retry.
    A handler that returns [true] sent exactly one, and the Ping and Key
    Status handlers send exactly one in every run, whatever the settings,
    the state and the callback are. *)
Theorem X1_at_most_one_request
    (a : Action) (w : World) (memory state : JSValue) (callback : bool) :
  In a (actions elfaAiPlugin) ->
  length (requests (fst (handler a w memory state callback))) <= 1
  /\ (snd (handler a w memory state callback) = Return true ->
      length (requests (fst (handler a w memory state callback))) = 1)
  /\ (forall dd, In (a, dd) direct_actions ->
                 length (requests (fst (handler a w memory state callback))) = 1).
Proof.
  intros Ha.
  destruct (action_shape a Ha) as [(dd & Hdd & _ & Heq)|(d & Hd & _ & Heq)];
    rewrite Heq.
  - rewrite direct_requests. simpl. auto.
  - split; [|split].
    + pipeline_cases d w memory state callback; concrete_log state callback;
        simpl; lia.
    + pipeline_cases d w memory state callback; try discriminate.
      intros _. concrete_log state callback; reflexivity.
    + intros dd Hdd. destruct (shapes_disjoint a dd d Hdd Hd).
Qed.

Lemma X1_witness :
  length (requests (fst (run_of elfaPingAction bare_world))) = 1.
Proof.
  assert (Hin : In elfaPingAction (actions elfaAiPlugin)) by (simpl; auto).
  assert (Hdd : In (elfaPingAction, ping_descriptor) direct_actions)
    by (simpl; auto).
  exact (proj2 (proj2 (X1_at_most_one_request elfaPingAction bare_world
                         JUndefined JUndefined true Hin))
           ping_descriptor Hdd).
Defined.

(** ** The optional callback *)

Lemma direct_without_callback d w m s :
  direct d w m s false
  = (without_callbacks (fst (direct d w m s true)), snd (direct d w m s true)).
Proof.
  unfold direct, runtime_getSetting, axios_get_data, callback_opt.
  cbn [bind emit ret app].
  destruct (axios_get w _ _ _) as [data|e]; reflexivity.
Qed.

Lemma pipeline_without_callback d w m s :
  pipeline d w m s false
  = (without_callbacks (fst (pipeline d w m s true)),
     snd (pipeline d w m s true)).
Proof.
  unfold pipeline. rewrite refresh_state_run.
  unfold runtime_getSetting, core_generateObject, axios_get_data,
    core_generateText, callback_opt, lift, state_event.
  destruct (state_result w m s) as [u|e].
  2:{ destruct (negb (truthy s)); reflexivity. }
  cbn [bind emit ret app].
  destruct (generateObject w _ _ _ _) as [c|e].
  2:{ destruct (negb (truthy s)); reflexivity. }
  destruct (d_guard d c) as [[|]|e].
  2,3: destruct (negb (truthy s)); reflexivity.
  cbn [negb].
  pose proof (destructure_all_silent c (d_bindings d)) as Hsil.
  destruct (destructure_all c (d_bindings d)) as [t0 [ps|e]];
    simpl in Hsil; subst t0.
  2:{ destruct (negb (truthy s)); reflexivity. }
  cbn [bind].
  destruct (axios_get w _ _ _) as [data|e].
  2:{ destruct (negb (truthy s)); reflexivity. }
  destruct (generateText w _) as [summary|e];
    destruct (negb (truthy s)); reflexivity.
Qed.

(** X2.  The callback is optional and only observed: without it a handler
    makes the same calls in the same order and returns the same value as
    with it, and emits nothing. *)
Theorem X2_callback_is_optional
    (a : Action) (w : World) (memory state : JSValue) :
  In a (actions elfaAiPlugin) ->
  snd (handler a w memory state false) = snd (handler a w memory state true)
  /\ fst (handler a w memory state false)
     = without_callbacks (fst (handler a w memory state true))
  /\ emitted (fst (handler a w memory state false)) = [].
Proof.
  intros Ha.
  assert (Hnone : forall t, emitted (without_callbacks t) = []).
  { induction t as [|ev t IH]; [reflexivity|]. destruct ev; simpl; auto. }
  destruct (action_shape a Ha) as [(dd & _ & _ & Heq)|(d & _ & _ & Heq)];
    rewrite !Heq.
  - rewrite direct_without_callback. cbn [fst snd]. auto.
  - rewrite pipeline_without_callback. cbn [fst snd]. auto.
Qed.

Lemma X2_witness :
  snd (handler elfaGetTopMentionsAction
         (configured_world (JObj [("ticker", JStr "SOL")]) "summary")
         JUndefined JUndefined false)
  = Return true
  /\ emitted (fst (handler elfaGetTopMentionsAction
                     (configured_world (JObj [("ticker", JStr "SOL")]) "summary")
                     JUndefined JUndefined false)) = [].
Proof.
  assert (Hin : In elfaGetTopMentionsAction (actions elfaAiPlugin))
    by (simpl; auto 10).
  destruct (X2_callback_is_optional elfaGetTopMentionsAction
              (configured_world (JObj [("ticker", JStr "SOL")]) "summary")
              JUndefined JUndefined Hin) as (Hr & _ & He).
  split; [rewrite Hr; reflexivity | exact He].
Defined.

(** ** The order of the calls *)

(** X3.  An extracting handler refreshes the state exactly once, right
    after reading the two settings: with [composeState(message)] when the
    state it was given is falsy, with [updateRecentMessageState(state)]
    otherwise, never both.  Ping and Key Status never touch the state. *)
Theorem X3_state_refreshed_once
    (a : Action) (w : World) (memory state : JSValue) (callback : bool) :
  In a (actions elfaAiPlugin) ->
  (forall d,
      In (a, d) extracting_actions ->
      exists rest,
        fst (handler a w memory state callback)
        = ([EvGetSetting "ELFA_AI_BASE_URL"; EvGetSetting "ELFA_AI_API_KEY";
            if truthy state
            then EvUpdateRecentMessageState state
                   (updateRecentMessageState w state)
            else EvComposeState memory (composeState w memory)]
           ++ rest)%list
        /\ has_step RefreshState rest = false)
  /\ (forall dd,
         In (a, dd) direct_actions ->
         has_step RefreshState (fst (handler a w memory state callback)) = false).
Proof.
  intros _. split.
  - intros d Hd. destruct (extracting_action_shape a d Hd) as [_ ->].
    pipeline_cases d w memory state callback;
      unfold settings_read, state_event, extract_event, failure_said,
        invalid_said, said;
      match goal with
      | H : state_result _ _ _ = _ |- _ => unfold state_result in H
      end;
      destruct (truthy state); cbn [negb app] in *;
      match goal with
      | H : _ = _ :> Result Error JSValue |- _ => rewrite H
      end;
      eexists; (split; [reflexivity|]); destruct callback; reflexivity.
  - intros dd Hdd. destruct (direct_action_shape a dd Hdd) as [_ ->].
    direct_cases dd w memory state callback; unfold said; destruct callback;
      reflexivity.
Qed.

Lemma X3_witness :
  exists rest,
    fst (handler elfaGetTrendingTokens
           (configured_world trending_page_abc "summary")
           (JStr "message") (JObj [("recentMessages", JStr "hi")]) true)
    = ([EvGetSetting "ELFA_AI_BASE_URL"; EvGetSetting "ELFA_AI_API_KEY";
        EvUpdateRecentMessageState (JObj [("recentMessages", JStr "hi")])
          (Return (JObj [("recentMessages", JStr "hi")]))]
       ++ rest)%list
    /\ has_step RefreshState rest = false.
Proof.
  assert (Hin : In elfaGetTrendingTokens (actions elfaAiPlugin))
    by (simpl; auto 10).
  assert (Hd : In (elfaGetTrendingTokens, trending_tokens_descriptor)
                  extracting_actions) by (simpl; auto 10).
  exact (proj1 (X3_state_refreshed_once elfaGetTrendingTokens
                  (configured_world trending_page_abc "summary")
                  (JStr "message") (JObj [("recentMessages", JStr "hi")]) true
                  Hin)
           trending_tokens_descriptor Hd).
Defined.



(** ** What the guards let through *)

(** What each guard says of a value that is not an object: reading a
    property of [undefined] or [null] throws, anything else lacks the first
    field the guard looks at. *)
Lemma guard_of_non_object d c :
  In d (map snd extracting_actions) ->
  (forall props, c <> JObj props) ->
  match c with
  | JUndefined | JNull => exists e, d_guard d c = Throw e
  | _ => d_guard d c = Return false
  end.
Proof.
  simpl. intros [<-|[<-|[<-|[<-|[<-|[]]]]]] Hno; cbn [d_guard];
    destruct c; unfold_guard;
    try (eexists; reflexivity); try reflexivity;
    exfalso; eapply Hno; reflexivity.
Qed.

(** X5.  When the extraction returns something that is not an object, an
    extracting handler sends no request and returns [false].  For
    [undefined] and [null] the guard's property read throws and the
    message is the handler's failure message; for a string, a number, a
    boolean or an array the message is the invalid-content one. *)
Theorem X5_non_object_extraction_is_rejected
    (a : Action) (d : Descriptor) (w : World) (memory state : JSValue)
    (u c : JSValue) :
  In (a, d) extracting_actions ->
  state_result w memory state = Return u ->
  extract_result d w u = Return c ->
  (forall props, c <> JObj props) ->
  requests (fst (handler a w memory state true)) = []
  /\ snd (handler a w memory state true) = Return false
  /\ match c with
     | JUndefined | JNull =>
         exists e, emitted (fst (handler a w memory state true))
                   = [failure_message d e]
     | _ => emitted (fst (handler a w memory state true)) = [invalid_message d]
     end.
Proof.
  intros Hd Hs Hx Hno.
  pose proof (guard_of_non_object d c (extracting_descriptor_listed a d Hd) Hno)
    as Hg.
  destruct (extracting_action_shape a d Hd) as [_ ->].
  destruct c; try (exfalso; eapply Hno; reflexivity);
    cbn beta iota in Hg;
    try match type of Hg with ex _ => destruct Hg as [e0 Hg] end;
    pipeline_cases d w memory state true; try congruence; unify_runs;
    try congruence;
    concrete_log_said state; (split; [reflexivity|]); (split; [reflexivity|]);
    unfold failure_message, invalid_message; eauto.
Qed.

Lemma X5_witness :
  requests (fst (run_of elfaGetSmartMentions (configured_world JNull "summary")))
  = []
  /\ snd (run_of elfaGetSmartMentions (configured_world JNull "summary"))
     = Return false
  /\ exists e,
       emitted (fst (run_of elfaGetSmartMentions
                       (configured_world JNull "summary")))
       = [failure_message smart_mentions_descriptor e].
Proof.
  assert (Hd : In (elfaGetSmartMentions, smart_mentions_descriptor)
                  extracting_actions) by (simpl; auto 10).
  apply (X5_non_object_extraction_is_rejected elfaGetSmartMentions
           smart_mentions_descriptor (configured_world JNull "summary")
           JUndefined JUndefined
           (JObj [("recentMessages", JStr "user: hello")]) JNull Hd
           eq_refl eq_refl).
  intros props H. discriminate H.
Defined.

(** X6.  Trending Tokens content whose [timeWindow] is not a string, in
    particular content that leaves it out, is rejected: no request is sent
    and the handler returns [false] with the invalid-content message.  The
    default window of 24h in the destructuring is therefore never used. *)
Theorem X6_trending_needs_a_string_timeWindow
    (w : World) (memory state : JSValue) (callback : bool)
    (u : JSValue) (props : list (string * JSValue)) :
  state_result w memory state = Return u ->
  extract_result trending_tokens_descriptor w u = Return (JObj props) ->
  typeof (field props "timeWindow") <> "string" ->
  requests (fst (handler elfaGetTrendingTokens w memory state callback)) = []
  /\ snd (handler elfaGetTrendingTokens w memory state callback) = Return false
  /\ emitted (fst (handler elfaGetTrendingTokens w memory state callback))
     = if callback then [invalid_message trending_tokens_descriptor] else [].
Proof.
  intros Hs Hx Hty. cbn [handler elfaGetTrendingTokens].
  rewrite trending_tokens_is_pipeline.
  assert (Hg : d_guard trending_tokens_descriptor (JObj props) = Return false).
  { cbn [d_guard trending_tokens_descriptor]. rewrite trending_guard_object.
    apply String.eqb_neq in Hty. now rewrite Hty. }
  pipeline_cases trending_tokens_descriptor w memory state callback;
    try congruence; unify_runs; try congruence.
  concrete_log state callback; auto.
Qed.

Lemma X6_witness :
  requests (fst (run_of elfaGetTrendingTokens
                   (configured_world (JObj [("page", JNum 2)]) "summary"))) = []
  /\ snd (run_of elfaGetTrendingTokens
            (configured_world (JObj [("page", JNum 2)]) "summary"))
     = Return false
  /\ emitted (fst (run_of elfaGetTrendingTokens
                     (configured_world (JObj [("page", JNum 2)]) "summary")))
     = [invalid_message trending_tokens_descriptor].
Proof.
  apply (X6_trending_needs_a_string_timeWindow
           (configured_world (JObj [("page", JNum 2)]) "summary")
           JUndefined JUndefined true
           (JObj [("recentMessages", JStr "user: hello")])
           [("page", JNum 2)] eq_refl eq_refl).
  discriminate.
Defined.

(** X7.  Trending Tokens content with a string [timeWindow] is always
    dispatched, and [page], [pageSize] and [minMentions] go out unchecked:
    each is sent as extracted, whatever its type, and only an [undefined]
    one is replaced by its default (1, 50, 5). *)
Theorem X7_trending_forwards_unchecked_fields
    (w : World) (memory state : JSValue) (callback : bool)
    (u : JSValue) (props : list (string * JSValue)) (s : string) :
  state_result w memory state = Return u ->
  extract_result trending_tokens_descriptor w u = Return (JObj props) ->
  field props "timeWindow" = JStr s ->
  requests (fst (handler elfaGetTrendingTokens w memory state callback))
  = [(to_string (getSetting w BASE_URL) ++ "/v1/trending-tokens",
      request_headers (getSetting w API_KEY),
      Some [("timeWindow", JStr s);
            ("page", with_default (field props "page") (Some (JNum 1)));
            ("pageSize", with_default (field props "pageSize") (Some (JNum 50)));
            ("minMentions",
             with_default (field props "minMentions") (Some (JNum 5)))])].
Proof.
  intros Hs Hx Htw. cbn [handler elfaGetTrendingTokens].
  rewrite trending_tokens_is_pipeline.
  assert (Hg : d_guard trending_tokens_descriptor (JObj props) = Return true).
  { cbn [d_guard trending_tokens_descriptor]. rewrite trending_guard_object.
    now rewrite Htw. }
  pipeline_cases trending_tokens_descriptor w memory state callback;
    try congruence; unify_runs; try congruence;
    match goal with
    | H : destructure_all _ _ = _ |- _ =>
        rewrite destructure_all_object in H; inversion H; subst
    end;
    concrete_log state callback;
    unfold expected_params; cbn [map fst snd d_bindings trending_tokens_descriptor];
    rewrite Htw; reflexivity.
Qed.

Lemma X7_witness :
  requests (fst (run_of elfaGetTrendingTokens
                   (configured_world
                      (JObj [("timeWindow", JStr "7d"); ("page", JNull);
                             ("pageSize", JBool true)]) "summary")))
  = [("https://api.elfa.ai/v1/trending-tokens",
      request_headers (JStr "secret"),
      Some [("timeWindow", JStr "7d"); ("page", JNull);
            ("pageSize", JBool true); ("minMentions", JNum 5)])].
Proof.
  exact (X7_trending_forwards_unchecked_fields
           (configured_world
              (JObj [("timeWindow", JStr "7d"); ("page", JNull);
                     ("pageSize", JBool true)]) "summary")
           JUndefined JUndefined true
           (JObj [("recentMessages", JStr "user: hello")])
           [("timeWindow", JStr "7d"); ("page", JNull); ("pageSize", JBool true)]
           "7d" eq_refl eq_refl eq_refl).
Defined.

(** X8.  For Smart Mentions, Top Mentions, Search Mentions and Account
    Stats, extracted content with a wrong-typed field or without a
    required field never reaches the API: no request is sent, the handler
    returns [false], and the one message emitted is the invalid-content
    message or, when the content is [undefined] or [null], the failure
    message. *)
Theorem X8_malformed_content_sends_nothing
    (a : Action) (d : Descriptor) (w : World) (memory state : JSValue)
    (u c : JSValue) :
  In (a, d) [ (elfaGetSmartMentions, smart_mentions_descriptor);
              (elfaGetTopMentionsAction, top_mentions_descriptor);
              (elfaGetSearchMentionsByKeywordsAction, search_mentions_descriptor);
              (elfaGetTwitterAccountStatsAction, account_stats_descriptor) ] ->
  state_result w memory state = Return u ->
  extract_result d w u = Return c ->
  malformed (d_schema d) c = true ->
  requests (fst (handler a w memory state true)) = []
  /\ snd (handler a w memory state true) = Return false
  /\ (emitted (fst (handler a w memory state true)) = [invalid_message d]
      \/ exists e, emitted (fst (handler a w memory state true))
                   = [failure_message d e]).
Proof.
  intros Hin Hs Hx Hmal.
  assert (Hsh : (forall w m s cb, handler a w m s cb = pipeline d w m s cb)
                /\ d_guard d c <> Return true).
  { simpl in Hin.
    destruct Hin as [H|[H|[H|[H|[]]]]]; inversion H; subst; simpl; split;
      auto using smart_mentions_is_pipeline, top_mentions_is_pipeline,
        search_mentions_is_pipeline, account_stats_is_pipeline,
        smart_guard_rejects_malformed, top_guard_rejects_malformed,
        search_guard_rejects_malformed, stats_guard_rejects_malformed. }
  destruct Hsh as [Heq Hrej]. rewrite Heq.
  pipeline_cases d w memory state true; try congruence; unify_runs;
    try congruence;
    concrete_log_said state; (split; [reflexivity|]); (split; [reflexivity|]);
    unfold failure_message, invalid_message; eauto.
Qed.

Lemma X8_witness :
  requests (fst (run_of elfaGetTopMentionsAction
                   (configured_world
                      (JObj [("ticker", JStr "SOL"); ("page", JStr "2")])
                      "summary"))) = []
  /\ snd (run_of elfaGetTopMentionsAction
            (configured_world
               (JObj [("ticker", JStr "SOL"); ("page", JStr "2")]) "summary"))
     = Return false
  /\ (emitted (fst (run_of elfaGetTopMentionsAction
                      (configured_world
                         (JObj [("ticker", JStr "SOL"); ("page", JStr "2")])
                         "summary")))
      = [invalid_message top_mentions_descriptor]
      \/ exists e,
           emitted (fst (run_of elfaGetTopMentionsAction
                           (configured_world
                              (JObj [("ticker", JStr "SOL"); ("page", JStr "2")])
                              "summary")))
           = [failure_message top_mentions_descriptor e]).
Proof.
  apply (X8_malformed_content_sends_nothing elfaGetTopMentionsAction
           top_mentions_descriptor
           (configured_world (JObj [("ticker", JStr "SOL"); ("page", JStr "2")])
              "summary")
           JUndefined JUndefined
           (JObj [("recentMessages", JStr "user: hello")])
           (JObj [("ticker", JStr "SOL"); ("page", JStr "2")])).
  - simpl. auto.
  - reflexivity.
  - reflexivity.
  - reflexivity.
Defined.

(** On objects, three guards are the schema's type check. *)
Ltac settle_field v :=
  destruct v;
  cbn [typeof strict_eq String.eqb Ascii.eqb Bool.eqb issues_of invalid_type
       app existsb issue_code orb negb];
  try reflexivity;
  repeat match goal with
         | |- context [Nat.ltb ?a ?b] => destruct (Nat.ltb a b)
         end;
  cbn [typeof strict_eq String.eqb Ascii.eqb Bool.eqb issues_of invalid_type
       app existsb issue_code orb negb];
  try reflexivity.

Lemma top_guard_is_type_check props :
  isGetTopMentionsContent (JObj props)
  = Return (negb (malformed getTopMentionsSchema (JObj props))).
Proof.
  unfold malformed, parse, object_issues, getTopMentionsSchema.
  cbn [flat_map fst snd]. unfold_guard.
  generalize (field props "ticker") (field props "timeWindow")
    (field props "page") (field props "pageSize")
    (field props "includeAccountDetails").
  intros v1 v2 v3 v4 v5.
  settle_field v1; settle_field v2; settle_field v3; settle_field v4;
    settle_field v5.
Qed.

Lemma search_guard_is_type_check props :
  isGetSearchMentionsByKeywordsContent (JObj props)
  = Return (negb (malformed getSearchMentionsByKeywordsSchema (JObj props))).
Proof.
  unfold malformed, parse, object_issues, getSearchMentionsByKeywordsSchema.
  cbn [flat_map fst snd]. unfold_guard.
  generalize (field props "keywords") (field props "from")
    (field props "to") (field props "limit").
  intros v1 v2 v3 v4.
  settle_field v1; settle_field v2; settle_field v3; settle_field v4.
Qed.

Lemma stats_guard_is_type_check props :
  isGetTwitterAccountStatsContent (JObj props)
  = Return (negb (malformed getTwitterAccountStatsSchema (JObj props))).
Proof.
  unfold malformed, parse, object_issues, getTwitterAccountStatsSchema.
  cbn [flat_map fst snd]. unfold_guard.
  generalize (field props "username"). intros v1.
  settle_field v1.
Qed.

(** X9.  For Top Mentions, Search Mentions and Account Stats the guard
    accepts an object exactly when every field has the type the schema
    declares and no required field is missing.  It checks types only: a
    string shorter than the schema's minimum is accepted, and so is
    everything the schema accepts. *)
Theorem X9_guard_is_the_schema_type_check
    (a : Action) (d : Descriptor) (c : JSValue) :
  In (a, d) [ (elfaGetTopMentionsAction, top_mentions_descriptor);
              (elfaGetSearchMentionsByKeywordsAction, search_mentions_descriptor);
              (elfaGetTwitterAccountStatsAction, account_stats_descriptor) ] ->
  (forall props, c = JObj props ->
                 d_guard d c = Return (negb (malformed (d_schema d) c)))
  /\ (forall v, parse (d_schema d) c = Return v -> d_guard d c = Return true).
Proof.
  intros Hin.
  assert (Hobj : forall props,
             d_guard d (JObj props)
             = Return (negb (malformed (d_schema d) (JObj props)))).
  { simpl in Hin. destruct Hin as [H|[H|[H|[]]]]; inversion H; subst;
      intros props; cbn [d_guard d_schema top_mentions_descriptor
                           search_mentions_descriptor account_stats_descriptor];
      auto using top_guard_is_type_check, search_guard_is_type_check,
        stats_guard_is_type_check. }
  split.
  - intros props ->. apply Hobj.
  - intros v Hv. destruct c; try discriminate Hv.
    rewrite Hobj. unfold malformed. now rewrite Hv.
Qed.

Lemma X9_witness :
  isGetTopMentionsContent (JObj [("ticker", JStr EmptyString)]) = Return true
  /\ isGetSearchMentionsByKeywordsContent
       (JObj [("keywords", JStr "ai agents"); ("from", JNum 1738675001);
              ("to", JNum 1738775001)])
     = Return true.
Proof.
  split.
  - exact (proj1 (X9_guard_is_the_schema_type_check elfaGetTopMentionsAction
                    top_mentions_descriptor (JObj [("ticker", JStr EmptyString)])
                    (or_introl eq_refl))
             [("ticker", JStr EmptyString)] eq_refl).
  - exact (proj2 (X9_guard_is_the_schema_type_check
                    elfaGetSearchMentionsByKeywordsAction
                    search_mentions_descriptor
                    (JObj [("keywords", JStr "ai agents");
                           ("from", JNum 1738675001); ("to", JNum 1738775001)])
                    (or_intror (or_introl eq_refl)))
             (JObj [("keywords", JStr "ai agents"); ("from", JNum 1738675001);
                    ("to", JNum 1738775001)])
             eq_refl).
Defined.

(** ** The query parameters *)



(** ** Success and failure *)

(** X11.  When the summary fails after the API has answered, an extracting
    handler returns [false] and its message is the failure message with
    the summariser's error: the response that was fetched is not reported,
    although the request was made. *)
Theorem X11_failed_summary_drops_the_response
    (a : Action) (d : Descriptor) (w : World) (memory state : JSValue)
    (callback : bool) (prompt : string) (e : Error) :
  In (a, d) extracting_actions ->
  In (EvGenerateText prompt (Throw e)) (fst (handler a w memory state callback)) ->
  snd (handler a w memory state callback) = Return false
  /\ (exists ps data,
         requests (fst (handler a w memory state callback))
         = [(pipeline_url d w, pipeline_headers w, Some ps)]
         /\ axios_get w (pipeline_url d w) (pipeline_headers w) (Some ps)
            = Return data
         /\ prompt = summary_prompt d ps data)
  /\ emitted (fst (handler a w memory state callback))
     = if callback then [failure_message d e] else [].
Proof.
  intros Hd. destruct (extracting_action_shape a d Hd) as [_ ->].
  pipeline_cases d w memory state callback; concrete_log state callback;
    intros Hin; simpl in Hin;
    repeat match goal with
           | H : _ \/ _ |- _ => destruct H
           | H : False |- _ => destruct H
           end;
    try discriminate;
    match goal with
    | H : EvGenerateText _ _ = EvGenerateText _ _ |- _ =>
        inversion H; subst; clear H
    end;
    (split; [reflexivity|]); (split; [eauto|reflexivity]).
Qed.

(** The model extracts and the API answers, but writes no summary. *)
Lemma X11_witness :
  snd (run_of elfaGetSmartMentions
         (mkWorld (fun k => field sample_settings k) (fun _ => None)
            (fun _ => Return (JObj [])) (fun s => Return s)
            (fun _ template => template)
            (fun _ _ _ _ => Return (JObj [("limit", JNum 1); ("offset", JNum 0)]))
            (fun _ => Throw (new_Error "model overloaded"))
            (fun _ _ _ => Return status_ok)))
  = Return false
  /\ emitted (fst (run_of elfaGetSmartMentions
         (mkWorld (fun k => field sample_settings k) (fun _ => None)
            (fun _ => Return (JObj [])) (fun s => Return s)
            (fun _ template => template)
            (fun _ _ _ _ => Return (JObj [("limit", JNum 1); ("offset", JNum 0)]))
            (fun _ => Throw (new_Error "model overloaded"))
            (fun _ _ _ => Return status_ok))))
     = [failure_message smart_mentions_descriptor
          (new_Error "model overloaded")].
Proof.
  assert (Hd : In (elfaGetSmartMentions, smart_mentions_descriptor)
                  extracting_actions) by (simpl; auto 10).
  destruct (X11_failed_summary_drops_the_response elfaGetSmartMentions
              smart_mentions_descriptor
              (mkWorld (fun k => field sample_settings k) (fun _ => None)
                 (fun _ => Return (JObj [])) (fun s => Return s)
                 (fun _ template => template)
                 (fun _ _ _ _ =>
                    Return (JObj [("limit", JNum 1); ("offset", JNum 0)]))
                 (fun _ => Throw (new_Error "model overloaded"))
                 (fun _ _ _ => Return status_ok))
              JUndefined JUndefined true
              (summary_prompt smart_mentions_descriptor
                 [("limit", JNum 1); ("offset", JNum 0)] status_ok)
              (new_Error "model overloaded") Hd)
    as (Hr & _ & He).
  - unfold run_of. do 5 right. left. reflexivity.
  - split; [exact Hr | exact He].
Defined.

(** X12.  A handler returns [true] exactly when every step succeeds.  For
    Ping and Key Status: when the request is answered.  For the five
    others: when the state is refreshed, the extraction returns an object
    the guard accepts, the request with the destructured parameters is
    answered, and the summary for the prompt built from the answer is
    written. *)
Theorem X12_true_exactly_when_every_step_succeeds
    (a : Action) (w : World) (memory state : JSValue) (callback : bool) :
  In a (actions elfaAiPlugin) ->
  (forall dd,
      In (a, dd) direct_actions ->
      (snd (handler a w memory state callback) = Return true
       <-> exists data,
             axios_get w (direct_url dd w) (direct_headers w) None = Return data))
  /\ (forall d,
         In (a, d) extracting_actions ->
         (snd (handler a w memory state callback) = Return true
          <-> exists u props data summary,
                state_result w memory state = Return u
                /\ extract_result d w u = Return (JObj props)
                /\ d_guard d (JObj props) = Return true
                /\ axios_get w (pipeline_url d w) (pipeline_headers w)
                     (Some (expected_params (d_bindings d) props))
                   = Return data
                /\ generateText w
                     (summary_prompt d (expected_params (d_bindings d) props) data)
                   = Return summary)).
Proof.
  intros _. split.
  - intros dd Hdd. destruct (direct_action_shape a dd Hdd) as [_ ->].
    direct_cases dd w memory state callback; split; eauto;
      try discriminate.
    intros (data & Hdata). congruence.
  - intros d Hd. destruct (extracting_action_shape a d Hd) as [_ ->].
    pose proof (extracting_descriptor_listed a d Hd) as Hlisted.
    pipeline_cases d w memory state callback; split; try discriminate;
      try reflexivity.
    all: try (intros (u' & props & data' & summary' & Hs & Hx & Hg & Ha & Ht);
              unify_runs; try congruence;
              match goal with
              | H : destructure_all (JObj _) _ = _ |- _ =>
                  rewrite destructure_all_object in H; inversion H; subst
              end; congruence).
    intros _.
    match goal with
    | H : d_guard d ?c = Return true |- _ =>
        destruct (guard_true_object d c Hlisted H) as (props & ->)
    end.
    match goal with
    | H : destructure_all (JObj _) _ = _ |- _ =>
        rewrite destructure_all_object in H; inversion H; subst
    end.
    exists u, props, data, summary. auto.
Qed.

Lemma X12_witness :
  snd (run_of elfaGetTwitterAccountStatsAction
         (configured_world (JObj [("username", JStr "elonmusk")]) "summary"))
  = Return true.
Proof.
  assert (Hin : In elfaGetTwitterAccountStatsAction (actions elfaAiPlugin))
    by (simpl; auto 10).
  assert (Hd : In (elfaGetTwitterAccountStatsAction, account_stats_descriptor)
                  extracting_actions) by (simpl; auto 10).
  apply (proj2 (proj2 (X12_true_exactly_when_every_step_succeeds
                         elfaGetTwitterAccountStatsAction
                         (configured_world
                            (JObj [("username", JStr "elonmusk")]) "summary")
                         JUndefined JUndefined true Hin)
                  account_stats_descriptor Hd)).
  exists (JObj [("recentMessages", JStr "user: hello")]),
    [("username", JStr "elonmusk")], status_ok, "summary".
  repeat split; reflexivity.
Defined.

(** X13.  Every message a handler emits is tagged with the action's own
    name, except the invalid-content message of an extracting handler,
    which has no tag and carries an [error] text instead. *)
Theorem X13_messages_carry_the_action_name
    (a : Action) (w : World) (memory state : JSValue) (callback : bool)
    (c : Content) :
  In a (actions elfaAiPlugin) ->
  In c (emitted (fst (handler a w memory state callback))) ->
  action c = Some (name a)
  \/ (action c = None
      /\ (exists d, In (a, d) extracting_actions)
      /\ exists reason, content c = Some (JObj [("error", JStr reason)])).
Proof.
  intros Ha.
  destruct (action_shape a Ha) as [(dd & Hdd & _ & Heq)|(d & Hd & _ & Heq)];
    rewrite Heq.
  - pose proof (direct_action_tag a dd Hdd) as Htag.
    direct_cases dd w memory state callback; unfold said; destruct callback;
      cbn [app emitted flat_map]; intros Hin;
      try destruct Hin as [<-|[]]; try destruct Hin;
      left; cbn [action]; now rewrite Htag.
  - pose proof (extracting_action_tag a d Hd) as Htag.
    pipeline_cases d w memory state callback; concrete_log state callback;
      intros Hin; try destruct Hin as [<-|[]]; try destruct Hin;
      cbn [action content];
      first [ left; now rewrite Htag | right; eauto 10 ].
Qed.

Lemma X13_witness :
  action (failure_message account_stats_descriptor
            (new_Error "Request failed with status code 401"))
  = Some (name elfaGetTwitterAccountStatsAction)
  \/ (action (failure_message account_stats_descriptor
                (new_Error "Request failed with status code 401")) = None
      /\ (exists d, In (elfaGetTwitterAccountStatsAction, d) extracting_actions)
      /\ exists reason,
           content (failure_message account_stats_descriptor
                      (new_Error "Request failed with status code 401"))
           = Some (JObj [("error", JStr reason)])).
Proof.
  assert (Hin : In elfaGetTwitterAccountStatsAction (actions elfaAiPlugin))
    by (simpl; auto 10).
  apply (X13_messages_carry_the_action_name elfaGetTwitterAccountStatsAction
           (unauthorized_world (JObj [("username", JStr "elonmusk")]))
           JUndefined JUndefined true _ Hin).
  left. now vm_compute.
Defined.

(** ** Validation *)

Lemma validate_trace a w :
  In a (actions elfaAiPlugin) ->
  fst (validate a w) = fst (validateElfaAiConfig w).
Proof.
  intros Ha. rewrite (validate_shape a w Ha).
  destruct (validateElfaAiConfig w) as [t [v|e]]; cbn [bind ret fst];
    [apply app_nil_r | reflexivity].
Qed.

(** X14.  [validate] only reads the configuration: it looks up the two
    settings, reads an environment variable only for a setting that is
    falsy, and makes no other call: no request, no model call, no
    message.  The seven actions validate in the same way. *)
Theorem X14_validate_only_reads_configuration
    (a b : Action) (w : World) :
  In a (actions elfaAiPlugin) ->
  In b (actions elfaAiPlugin) ->
  validate a w = validate b w
  /\ fst (validate a w)
     = ([EvGetSetting "ELFA_AI_BASE_URL"]
        ++ (if truthy (getSetting w "ELFA_AI_BASE_URL") then []
            else [EvEnv "ELFA_AI_BASE_URL"])
        ++ [EvGetSetting "ELFA_AI_API_KEY"]
        ++ (if truthy (getSetting w "ELFA_AI_API_KEY") then []
            else [EvEnv "ELFA_AI_API_KEY"]))%list
  /\ requests (fst (validate a w)) = []
  /\ emitted (fst (validate a w)) = [].
Proof.
  intros Ha Hb.
  split; [now rewrite (validate_shape a w Ha), (validate_shape b w Hb)|].
  rewrite (validate_trace a w Ha), validateElfaAiConfig_trace.
  unfold BASE_URL, API_KEY.
  destruct (truthy (getSetting w "ELFA_AI_BASE_URL")),
    (truthy (getSetting w "ELFA_AI_API_KEY")); auto.
Qed.

Lemma X14_witness :
  fst (validate elfaGetTrendingTokens
         (sample_world [("ELFA_AI_API_KEY", JStr "secret")]
            [("ELFA_AI_BASE_URL", "https://api.elfa.ai")]
            JUndefined status_ok "summary"))
  = [EvGetSetting "ELFA_AI_BASE_URL"; EvEnv "ELFA_AI_BASE_URL";
     EvGetSetting "ELFA_AI_API_KEY"].
Proof.
  assert (Ha : In elfaGetTrendingTokens (actions elfaAiPlugin))
    by (simpl; auto 10).
  exact (proj1 (proj2 (X14_validate_only_reads_configuration
                         elfaGetTrendingTokens elfaGetTrendingTokens
                         (sample_world [("ELFA_AI_API_KEY", JStr "secret")]
                            [("ELFA_AI_BASE_URL", "https://api.elfa.ai")]
                            JUndefined status_ok "summary") Ha Ha))).
Defined.

(** X15.  The resolver's error tells an unset field from an empty one.  For
    a field whose setting is falsy, the line of the message reads
    [Required] when the environment variable is unset, and carries the
    schema's own text (the base URL, or the API key, is required for
    interacting with Elfa AI) when the variable is set to the empty
    string. *)
Theorem X15_unset_and_empty_fields_are_told_apart (w : World) :
  (truthy (getSetting w BASE_URL) = false ->
   process_env w BASE_URL = None ->
   exists e, snd (validateElfaAiConfig w) = Throw e
             /\ Contains "ELFA_AI_BASE_URL: Required" (message e))
  /\ (truthy (getSetting w BASE_URL) = false ->
      process_env w BASE_URL = Some EmptyString ->
      exists e,
        snd (validateElfaAiConfig w) = Throw e
        /\ Contains
             "ELFA_AI_BASE_URL: Base URL is required for interacting with Elfa AI"
             (message e))
  /\ (truthy (getSetting w API_KEY) = false ->
      process_env w API_KEY = None ->
      exists e, snd (validateElfaAiConfig w) = Throw e
                /\ Contains "ELFA_AI_API_KEY: Required" (message e))
  /\ (truthy (getSetting w API_KEY) = false ->
      process_env w API_KEY = Some EmptyString ->
      exists e,
        snd (validateElfaAiConfig w) = Throw e
        /\ Contains
             "ELFA_AI_API_KEY: API key is required for interacting with Elfa AI"
             (message e)).
Proof.
  assert (Hcase : forall i,
             In i (object_issues elfaAiEnvSchema
                     [(BASE_URL, resolved w BASE_URL);
                      (API_KEY, resolved w API_KEY)]) ->
             exists e,
               snd (validateElfaAiConfig w) = Throw e
               /\ Contains (String.concat "." (issue_path i) ++ ": "
                            ++ issue_message i) (message e)).
  { intros i Hin. rewrite validateElfaAiConfig_result.
    destruct (object_issues elfaAiEnvSchema _) as [|i0 rest] eqn:Hi;
      [destruct Hin|].
    eexists. split; [reflexivity|]. cbn [message].
    apply Contains_append_l, Contains_append_l, errorMessages_contains, Hin. }
  repeat split; intros Hset Henv.
  - destruct (Hcase (mkIssue "invalid_type" [BASE_URL] "Required"))
      as (e & He & Hc); [|exists e; split; [exact He | exact Hc]].
    rewrite env_schema_issues. apply in_or_app. left.
    unfold resolved. rewrite Hset, Henv. now left.
  - destruct (Hcase (mkIssue "too_small" [BASE_URL]
                       "Base URL is required for interacting with Elfa AI"))
      as (e & He & Hc); [|exists e; split; [exact He | exact Hc]].
    rewrite env_schema_issues. apply in_or_app. left.
    unfold resolved. rewrite Hset, Henv. now left.
  - destruct (Hcase (mkIssue "invalid_type" [API_KEY] "Required"))
      as (e & He & Hc); [|exists e; split; [exact He | exact Hc]].
    rewrite env_schema_issues. apply in_or_app. right.
    unfold resolved. rewrite Hset, Henv. now left.
  - destruct (Hcase (mkIssue "too_small" [API_KEY]
                       "API key is required for interacting with Elfa AI"))
      as (e & He & Hc); [|exists e; split; [exact He | exact Hc]].
    rewrite env_schema_issues. apply in_or_app. right.
    unfold resolved. rewrite Hset, Henv. now left.
Qed.

Lemma X15_witness :
  exists e,
    snd (validateElfaAiConfig
           (sample_world [] [("ELFA_AI_API_KEY", EmptyString)]
              JUndefined status_ok "summary")) = Throw e
    /\ Contains "ELFA_AI_BASE_URL: Required" (message e)
    /\ Contains
         "ELFA_AI_API_KEY: API key is required for interacting with Elfa AI"
         (message e).
Proof.
  destruct (X15_unset_and_empty_fields_are_told_apart
              (sample_world [] [("ELFA_AI_API_KEY", EmptyString)]
                 JUndefined status_ok "summary"))
    as (Hb & _ & _ & Hk).
  destruct (Hb eq_refl eq_refl) as (e & He & Hcb).
  destruct (Hk eq_refl eq_refl) as (e' & He' & Hck).
  exists e. split; [exact He|]. split; [exact Hcb|].
  assert (e' = e) by congruence. subst e'. exact Hck.
Defined.

(** ** The registry *)

(** X16.  Every action of the plugin has example dialogues, and each is a
    user message followed by an agent message tagged with that action's
    own name. *)
Theorem X16_examples_show_their_own_action
    (a : Action) (examples : list (list ExampleMessage))
    (dialogue : list ExampleMessage) :
  In (a, examples) action_examples ->
  In dialogue examples ->
  shows_action (name a) dialogue = true.
Proof.
  simpl.
  intros [H|[H|[H|[H|[H|[H|[H|[]]]]]]]]; inversion H; subst;
    intros [<-|[]]; reflexivity.
Qed.

Lemma X16_witness :
  shows_action (name elfaGetTrendingTokens)
    [ mkExample "{{user}}" "get trending tokens" None;
      mkExample "{{agent}}" "ternding tokens retrieved successfully"
        (Some "ELFA_GET_TRENDING_TOKENS") ] = true.
Proof.
  apply (X16_examples_show_their_own_action elfaGetTrendingTokens
           elfaGetTrendingTokens_examples).
  - simpl. auto 10.
  - now left.
Defined.

(** X17.  Every request goes to the base URL setting, turned into a string
    as it is, followed by the action's endpoint, and carries exactly two
    headers: the JSON content type and the API key setting as it is.  The
    handler checks neither: a [null] base URL gives a URL starting with
    [null], and a missing key an undefined header. *)
Theorem X17_requests_use_the_settings_as_they_are
    (a : Action) (w : World) (memory state : JSValue) (callback : bool)
    (url : string) (headers : Headers) (params : option Params) :
  In a (actions elfaAiPlugin) ->
  In (url, headers, params) (requests (fst (handler a w memory state callback))) ->
  url = to_string (getSetting w "ELFA_AI_BASE_URL") ++ endpoint_of a
  /\ headers = [("Content-Type", JStr "application/json");
                ("x-elfa-api-key", getSetting w "ELFA_AI_API_KEY")]
  /\ In (name a, endpoint_of a) endpoints.
Proof.
  intros Ha Hin.
  destruct (handler_requests a w memory state callback _ Ha Hin) as (p & Heq).
  inversion Heq; subst. split; [reflexivity|]. split; [reflexivity|].
  clear - Ha. simpl in Ha.
  destruct Ha as [<-|[<-|[<-|[<-|[<-|[<-|[<-|[]]]]]]]]; simpl; auto 10.
Qed.

Lemma X17_witness :
  "null/v1/key-status"
  = to_string (getSetting
                 (sample_world [("ELFA_AI_BASE_URL", JNull)] []
                    JUndefined status_ok "summary") "ELFA_AI_BASE_URL")
    ++ endpoint_of elfaApiKeyStatusAction
  /\ [("Content-Type", JStr "application/json"); ("x-elfa-api-key", JUndefined)]
     = [("Content-Type", JStr "application/json");
        ("x-elfa-api-key",
         getSetting (sample_world [("ELFA_AI_BASE_URL", JNull)] []
                       JUndefined status_ok "summary") "ELFA_AI_API_KEY")]
  /\ In (name elfaApiKeyStatusAction, endpoint_of elfaApiKeyStatusAction)
        endpoints.
Proof.
  assert (Ha : In elfaApiKeyStatusAction (actions elfaAiPlugin))
    by (simpl; auto).
  apply (X17_requests_use_the_settings_as_they_are elfaApiKeyStatusAction
           (sample_world [("ELFA_AI_BASE_URL", JNull)] []
              JUndefined status_ok "summary")
           JUndefined JUndefined true
           "null/v1/key-status"
           [("Content-Type", JStr "application/json");
            ("x-elfa-api-key", JUndefined)]
           None Ha).
  left. now vm_compute.
Defined.
